(** * omd_migrate: export and import of catalog entities as NDJSON

    A shallow embedding of [export.py] and [import.py].  Python text is
    [String.string] (8-bit characters).  The dictionaries whose order shows
    in what is written (entity records, the configuration, the statistics)
    are association lists; the environment and the file system are stdpp's
    [gmap], the allow-lists [gset].  The effects (files, the remote service,
    the error list, exceptions) are passed explicitly.  What the code calls
    and does not define is a parameter: the SDK, [json.dump] on an open
    file and [json.loads]; a stand-in for each serves where a concrete one
    is needed. *)

From Stdlib Require Import ZArith String Ascii List Bool Lia.
From Stdlib Require Import Decimal DecimalString DecimalFacts DecimalPos.
From stdpp Require Import base option list gmap strings.

Set Warnings "-register-all".
#[local] Arguments String.append !s1 s2 : simpl nomatch.
Local Open Scope Z_scope.

(** ** Python values *)

(** The values that reach [json.dump]: the ones its encoder writes natively
    and, as [PObj], an object of any other class, given by the text of
    [str(o)] and of [repr(o)].  A float is given by the text of its [repr]
    ([0.1], [-0.0], [1e+16], [inf], [nan]). *)
Inductive pyval : Type :=
| PNone
| PBool (b : bool)
| PInt (z : Z)
| PStr (s : string)
| PList (l : list pyval)
| PTuple (l : list pyval)
| PDict (d : list (string * pyval))
| PObj (str_form repr_form : string)
| PFloat (repr_form : string).

(** A [Dict] with [str] keys, in insertion order. *)
Abbreviation dict := (list (string * pyval)).

(** [d.get(k)] *)
Fixpoint dict_get {V : Type} (k : string) (d : list (string * V)) : option V :=
  match d with
  | [] => None
  | (k', v) :: d' => if String.eqb k' k then Some v else dict_get k d'
  end.

(** [d[k] = v]: an existing key keeps its place. *)
Fixpoint dict_set {V : Type} (k : string) (v : V) (d : list (string * V))
  : list (string * V) :=
  match d with
  | [] => [(k, v)]
  | (k', v') :: d' =>
      if String.eqb k' k then (k, v) :: d' else (k', v') :: dict_set k v d'
  end.

(** [dict(pairs)] *)
Definition dict_of_pairs {V : Type} (pairs : list (string * V))
  : list (string * V) :=
  fold_left (fun d kv => dict_set (fst kv) (snd kv) d) pairs [].

(** No key occurs twice: what every Python dictionary satisfies. *)
Fixpoint keys_unique (ks : list string) : bool :=
  match ks with
  | [] => true
  | k :: ks' => negb (existsb (String.eqb k) ks') && keys_unique ks'
  end.



(** Truth value of a Python object, as [if v:] and [not v] use it. *)
Definition truthy (v : pyval) : bool :=
  match v with
  | PNone => false
  | PBool b => b
  | PInt z => negb (z =? 0)
  | PStr s => negb (String.eqb s "")
  | PList l | PTuple l => negb (Nat.eqb (List.length l) 0)
  | PDict d => negb (Nat.eqb (List.length d) 0)
  | PObj _ _ => true
  | PFloat r => negb (String.eqb r "0.0" || String.eqb r "-0.0")
  end.

(** ** Text *)

Definition LF : ascii := "010"%char.
Definition CR : ascii := "013"%char.
Definition TAB : ascii := "009"%char.
Definition BS : ascii := "008"%char.
Definition FF : ascii := "012"%char.
Definition DQUOTE : ascii := "034"%char.
Definition SQUOTE : ascii := "039"%char.
Definition BACKSLASH : ascii := "092"%char.

Definition code (c : ascii) : N := N_of_ascii c.

(** [c.isspace()] on the 8-bit characters. *)
Definition isspace (c : ascii) : bool :=
  let n := code c in
  ((9 <=? n) && (n <=? 13) || (28 <=? n) && (n <=? 32)
   || (n =? 133) || (n =? 160))%N.

Fixpoint lstrip (s : string) : string :=
  match s with
  | String c r => if isspace c then lstrip r else s
  | EmptyString => EmptyString
  end.

Fixpoint rstrip (s : string) : string :=
  match s with
  | String c r =>
      match rstrip r with
      | EmptyString => if isspace c then EmptyString else String c EmptyString
      | r' => String c r'
      end
  | EmptyString => EmptyString
  end.

(** [s.strip()] *)
Definition strip (s : string) : string := lstrip (rstrip s).

Definition lower_char (c : ascii) : ascii :=
  let n := code c in
  if ((65 <=? n) && (n <=? 90)
      || (192 <=? n) && (n <=? 222) && negb (n =? 215))%N
  then ascii_of_N (n + 32) else c.

(** [s.lower()] *)
Fixpoint lower (s : string) : string :=
  match s with
  | String c r => String (lower_char c) (lower r)
  | EmptyString => EmptyString
  end.

(** The lines of a text file opened with the default [newline=None], as
    [for line in f] yields them: a line ends at a line feed, a carriage
    return or the pair of them, each handed over as one line feed; the last
    line has no terminator when the file does not end with one. *)
Fixpoint readlines (s : string) : list string :=
  match s with
  | EmptyString => []
  | String c r =>
      if Ascii.eqb c LF then String LF EmptyString :: readlines r
      else if Ascii.eqb c CR then
        match r with
        | String c' r' =>
            if Ascii.eqb c' LF then String LF EmptyString :: readlines r'
            else String LF EmptyString :: readlines r
        | EmptyString => [String LF EmptyString]
        end
      else
        match readlines r with
        | [] => [String c EmptyString]
        | l :: ls => String c l :: ls
        end
  end.

(** The text of a file written line by line, a line feed after each. *)
Fixpoint join_lines (lines : list string) : string :=
  match lines with
  | [] => EmptyString
  | line :: rest => line +:+ String LF (join_lines rest)
  end.

(** [c in s] for a character. *)
Fixpoint contains (c : ascii) (s : string) : bool :=
  match s with
  | String c' r => Ascii.eqb c' c || contains c r
  | EmptyString => false
  end.

(** The line has neither a line feed nor a carriage return in it. *)
Fixpoint no_newline (s : string) : bool :=
  match s with
  | String c r => negb (Ascii.eqb c LF) && negb (Ascii.eqb c CR) && no_newline r
  | EmptyString => true
  end.

(** ** A stand-in for [json.dump(obj, f, ensure_ascii=False, default=str)]

    The text the encoder of the [json] module writes for a value.  The
    limits of the interpreter (the depth of recursion, the number of digits
    of an integer) are left out: here the encoder always completes. *)

(** [repr] of a non-negative and of any integer. *)
Definition nat_repr (n : N) : string := NilZero.string_of_uint (N.to_uint n).

Definition int_repr (z : Z) : string :=
  if z <? 0 then String "-" (nat_repr (Z.abs_N z)) else nat_repr (Z.abs_N z).

Definition hex_digit (n : N) : ascii :=
  ascii_of_N (if (n <? 10)%N then 48 + n else 87 + n).

(** [ESCAPE_DCT]: the quote, the backslash and the characters below 0x20. *)
Definition escape_char (c : ascii) : string :=
  if Ascii.eqb c DQUOTE then String BACKSLASH (String DQUOTE "")
  else if Ascii.eqb c BACKSLASH then "\\"
  else if Ascii.eqb c LF then "\n"
  else if Ascii.eqb c CR then "\r"
  else if Ascii.eqb c TAB then "\t"
  else if Ascii.eqb c BS then "\b"
  else if Ascii.eqb c FF then "\f"
  else if (code c <? 32)%N then
    "\u00" +:+ String (hex_digit (code c / 16))
                 (String (hex_digit (code c mod 16)) "")
  else String c "".

Fixpoint escape (s : string) : string :=
  match s with
  | String c r => escape_char c +:+ escape r
  | EmptyString => EmptyString
  end.

Definition encode_basestring (s : string) : string :=
  String DQUOTE (escape s +:+ String DQUOTE "").

(** The items of an array or object, [", "] between them. *)
Fixpoint join_tail {A : Type} (f : A -> string) (l : list A) : string :=
  match l with
  | [] => ""
  | x :: l' => ", " +:+ f x +:+ join_tail f l'
  end.

Definition join_items {A : Type} (f : A -> string) (l : list A) : string :=
  match l with
  | [] => ""
  | x :: l' => f x +:+ join_tail f l'
  end.

(** [float.__repr__] with the three names [allow_nan] writes. *)
Definition float_text (r : string) : string :=
  if String.eqb r "nan" then "NaN"
  else if String.eqb r "inf" then "Infinity"
  else if String.eqb r "-inf" then "-Infinity"
  else r.

(** The text [json.dump] writes: a tuple is written as an array, and an
    object the encoder does not know goes through [default=str]. *)
Fixpoint encode (v : pyval) : string :=
  match v with
  | PNone => "null"
  | PBool true => "true"
  | PBool false => "false"
  | PInt z => int_repr z
  | PStr s => encode_basestring s
  | PList l | PTuple l => "[" +:+ join_items encode l +:+ "]"
  | PDict d =>
      "{" +:+ join_items
                (fun kv => encode_basestring (fst kv) +:+ ": " +:+ encode (snd kv)) d
          +:+ "}"
  | PObj s _ => encode_basestring s
  | PFloat r => float_text r
  end.

(** One item of an object: the key, a colon and a blank, the value. *)
Definition encode_item (kv : string * pyval) : string :=
  encode_basestring (fst kv) +:+ ": " +:+ encode (snd kv).

(** ** A stand-in for [json.loads]

    The scanner of the [json] module on 8-bit text.  What it does not
    follow: a [\u] escape above [00ff] names a character this text does not
    have and is refused as malformed; a number with a fraction or an
    exponent becomes the float whose [repr] is the literal as written, which
    is so for the literals [json.dump] writes; an integer is read whatever
    its number of digits. *)

(** [WHITESPACE]: blank, tab, line feed, carriage return. *)
Definition is_ws (c : ascii) : bool :=
  Ascii.eqb c " " || Ascii.eqb c TAB || Ascii.eqb c LF || Ascii.eqb c CR.

Fixpoint skip_ws (s : string) : string :=
  match s with
  | String c r => if is_ws c then skip_ws r else s
  | EmptyString => EmptyString
  end.

Fixpoint strip_prefix (p s : string) : option string :=
  match p, s with
  | EmptyString, _ => Some s
  | String a p', String b s' => if Ascii.eqb a b then strip_prefix p' s' else None
  | String _ _, EmptyString => None
  end.

Definition hex_value (c : ascii) : option N :=
  let n := code c in
  if ((48 <=? n) && (n <=? 57))%N then Some (n - 48)%N
  else if ((97 <=? n) && (n <=? 102))%N then Some (n - 87)%N
  else if ((65 <=? n) && (n <=? 70))%N then Some (n - 55)%N
  else None.

Definition hex4 (a b c d : ascii) : option N :=
  match hex_value a, hex_value b, hex_value c, hex_value d with
  | Some x, Some y, Some z, Some w => Some (((x * 16 + y) * 16 + z) * 16 + w)%N
  | _, _, _, _ => None
  end.

(** [BACKSLASH]: the character a one-letter escape stands for. *)
Definition unescape (e : ascii) : option ascii :=
  if Ascii.eqb e DQUOTE then Some DQUOTE
  else if Ascii.eqb e BACKSLASH then Some BACKSLASH
  else if Ascii.eqb e "/" then Some "/"%char
  else if Ascii.eqb e "b" then Some BS
  else if Ascii.eqb e "f" then Some FF
  else if Ascii.eqb e "n" then Some LF
  else if Ascii.eqb e "r" then Some CR
  else if Ascii.eqb e "t" then Some TAB
  else None.

(** [scanstring] in strict mode, from just after the opening quote: the
    string and what follows its closing quote. *)
Fixpoint scanstring (s : string) : option (string * string) :=
  match s with
  | EmptyString => None
  | String c r =>
      if Ascii.eqb c DQUOTE then Some (EmptyString, r)
      else if Ascii.eqb c BACKSLASH then
        match r with
        | String e r1 =>
            if Ascii.eqb e "u" then
              match r1 with
              | String h1 (String h2 (String h3 (String h4 r2))) =>
                  match hex4 h1 h2 h3 h4 with
                  | Some n =>
                      if (n <? 256)%N then
                        match scanstring r2 with
                        | Some (t, r') => Some (String (ascii_of_N n) t, r')
                        | None => None
                        end
                      else None
                  | None => None
                  end
              | _ => None
              end
            else
              match unescape e with
              | Some ch =>
                  match scanstring r1 with
                  | Some (t, r') => Some (String ch t, r')
                  | None => None
                  end
              | None => None
              end
        | EmptyString => None
        end
      else if (code c <? 32)%N then None
      else
        match scanstring r with
        | Some (t, r') => Some (String c t, r')
        | None => None
        end
  end.

Definition digit_of (c : ascii) : option (uint -> uint) :=
  match c with
  | "0"%char => Some D0 | "1"%char => Some D1 | "2"%char => Some D2
  | "3"%char => Some D3 | "4"%char => Some D4 | "5"%char => Some D5
  | "6"%char => Some D6 | "7"%char => Some D7 | "8"%char => Some D8
  | "9"%char => Some D9
  | _ => None
  end.

Definition is_digit (c : ascii) : bool :=
  match digit_of c with Some _ => true | None => false end.

Fixpoint scan_digits (s : string) : uint * string :=
  match s with
  | String c r =>
      match digit_of c with
      | Some d => let (u, r') := scan_digits r in (d u, r')
      | None => (Nil, s)
      end
  | EmptyString => (Nil, EmptyString)
  end.

(** The integer part of [NUMBER_RE]: [0] alone, or digits that do not
    start with [0]. *)
Definition scan_nat (s : string) : option (N * string) :=
  match s with
  | String c r =>
      if Ascii.eqb c "0" then Some (0%N, r)
      else
        match scan_digits s with
        | (Nil, _) => None
        | (u, r') => Some (N.of_uint u, r')
        end
  | EmptyString => None
  end.

(** The digits the text starts with, as text. *)
Fixpoint take_digits (s : string) : string * string :=
  match s with
  | String c r =>
      if is_digit c then let (d, r') := take_digits r in (String c d, r')
      else (EmptyString, s)
  | EmptyString => (EmptyString, EmptyString)
  end.

(** The fraction of [NUMBER_RE], when there is one: a point and digits. *)
Definition scan_frac (s : string) : string * string :=
  match s with
  | String c r =>
      if Ascii.eqb c "." then
        match take_digits r with
        | (EmptyString, _) => (EmptyString, s)
        | (d, r') => (String c d, r')
        end
      else (EmptyString, s)
  | EmptyString => (EmptyString, s)
  end.

(** The exponent of [NUMBER_RE], when there is one: [e] or [E], a sign or
    none, and digits. *)
Definition scan_exp (s : string) : string * string :=
  match s with
  | String c r =>
      if Ascii.eqb c "e" || Ascii.eqb c "E" then
        match r with
        | String sign r1 =>
            if Ascii.eqb sign "+" || Ascii.eqb sign "-" then
              match take_digits r1 with
              | (EmptyString, _) => (EmptyString, s)
              | (d, r') => (String c (String sign d), r')
              end
            else
              match take_digits r with
              | (EmptyString, _) => (EmptyString, s)
              | (d, r') => (String c d, r')
              end
        | EmptyString => (EmptyString, s)
        end
      else (EmptyString, s)
  | EmptyString => (EmptyString, s)
  end.

(** A number: an integer, or with a fraction or an exponent a float. *)
Definition scan_number (s : string) : option (pyval * string) :=
  let (sign, digits) :=
    match s with
    | String c r => if Ascii.eqb c "-" then ("-", r) else (EmptyString, s)
    | EmptyString => (EmptyString, s)
    end in
  match scan_nat digits with
  | Some (n, r) =>
      let (frac, r1) := scan_frac r in
      let (exp, r2) := scan_exp r1 in
      match frac +:+ exp with
      | EmptyString =>
          Some (PInt (if String.eqb sign "-" then - Z.of_N n else Z.of_N n), r)
      | tail => Some (PFloat (sign +:+ nat_repr n +:+ tail), r2)
      end
  | None => None
  end.

(** What the scanner makes of a text: a value and what follows it, a
    [JSONDecodeError], or a [RecursionError]. *)
Inductive scanned : Type :=
| Scanned (v : pyval) (rest : string)
| Malformed
| TooDeep.

(** The depth of arrays and objects within each other at which the scanner
    raises [RecursionError]; [sys.getrecursionlimit()] is 1000 unless set
    otherwise. *)
Definition recursion_limit : nat := 1000.

(** [scan_once] with [JSONArray] and [JSONObject].  The three call each
    other on what is left of the text; [fuel] bounds the calls, [depth]
    counts the arrays and objects being read.  [array_loop] starts at an
    element, [object_loop] just after the opening quote of a key. *)
Fixpoint scan_once (fuel depth : nat) (s : string) : scanned :=
  match fuel with
  | O => Malformed
  | S fuel' =>
      match s with
      | EmptyString => Malformed
      | String c r =>
          if Ascii.eqb c DQUOTE then
            match scanstring r with
            | Some (t, r') => Scanned (PStr t) r'
            | None => Malformed
            end
          else if Ascii.eqb c "{" then
            if Nat.leb recursion_limit depth then TooDeep
            else
              match skip_ws r with
              | String c' r' =>
                  if Ascii.eqb c' "}" then Scanned (PDict []) r'
                  else if Ascii.eqb c' DQUOTE then
                    object_loop fuel' (S depth) r' []
                  else Malformed
              | EmptyString => Malformed
              end
          else if Ascii.eqb c "[" then
            if Nat.leb recursion_limit depth then TooDeep
            else
              match skip_ws r with
              | String c' r' =>
                  if Ascii.eqb c' "]" then Scanned (PList []) r'
                  else array_loop fuel' (S depth) (String c' r') []
              | EmptyString => Malformed
              end
          else
            match strip_prefix "null" s with
            | Some r' => Scanned PNone r'
            | None =>
            match strip_prefix "true" s with
            | Some r' => Scanned (PBool true) r'
            | None =>
            match strip_prefix "false" s with
            | Some r' => Scanned (PBool false) r'
            | None =>
            match scan_number s with
            | Some (v, r') => Scanned v r'
            | None =>
            match strip_prefix "NaN" s with
            | Some r' => Scanned (PFloat "nan") r'
            | None =>
            match strip_prefix "Infinity" s with
            | Some r' => Scanned (PFloat "inf") r'
            | None =>
            match strip_prefix "-Infinity" s with
            | Some r' => Scanned (PFloat "-inf") r'
            | None => Malformed
            end end end end end end end
      end
  end
with array_loop (fuel depth : nat) (s : string) (values : list pyval)
  : scanned :=
  match fuel with
  | O => Malformed
  | S fuel' =>
      match scan_once fuel' depth s with
      | Scanned value r =>
          match skip_ws r with
          | String c r' =>
              if Ascii.eqb c "]" then Scanned (PList (values ++ [value])) r'
              else if Ascii.eqb c "," then
                array_loop fuel' depth (skip_ws r') (values ++ [value])
              else Malformed
          | EmptyString => Malformed
          end
      | failed => failed
      end
  end
with object_loop (fuel depth : nat) (s : string)
    (pairs : list (string * pyval)) : scanned :=
  match fuel with
  | O => Malformed
  | S fuel' =>
      match scanstring s with
      | Some (key, r) =>
          match skip_ws r with
          | String c r1 =>
              if Ascii.eqb c ":" then
                match scan_once fuel' depth (skip_ws r1) with
                | Scanned value r2 =>
                    match skip_ws r2 with
                    | String c' r3 =>
                        if Ascii.eqb c' "}" then
                          Scanned
                            (PDict (dict_of_pairs (pairs ++ [(key, value)]))) r3
                        else if Ascii.eqb c' "," then
                          match skip_ws r3 with
                          | String c'' r4 =>
                              if Ascii.eqb c'' DQUOTE then
                                object_loop fuel' depth r4
                                  (pairs ++ [(key, value)])
                              else Malformed
                          | EmptyString => Malformed
                          end
                        else Malformed
                    | EmptyString => Malformed
                    end
                | failed => failed
                end
              else Malformed
          | EmptyString => Malformed
          end
      | None => Malformed
      end
  end.

(** [json.loads(s)]: one value, white space around it and nothing else. *)
Definition json_loads (s : string) : scanned :=
  match scan_once (S (2 * String.length s)) 0 (skip_ws s) with
  | Scanned v r =>
      match skip_ws r with
      | EmptyString => Scanned v EmptyString
      | String _ _ => Malformed
      end
  | failed => failed
  end.

(** ** [str] and [repr] *)

(** [c.isprintable()] on the 8-bit characters. *)
Definition isprintable (c : ascii) : bool :=
  let n := code c in
  ((32 <=? n) && (n <=? 126) || (161 <=? n) && negb (n =? 173))%N.

Definition repr_char (quote c : ascii) : string :=
  if Ascii.eqb c quote || Ascii.eqb c BACKSLASH then String BACKSLASH (String c "")
  else if Ascii.eqb c TAB then "\t"
  else if Ascii.eqb c LF then "\n"
  else if Ascii.eqb c CR then "\r"
  else if isprintable c then String c ""
  else "\x" +:+ String (hex_digit (code c / 16))
                  (String (hex_digit (code c mod 16)) "").

Fixpoint repr_chars (quote : ascii) (s : string) : string :=
  match s with
  | String c r => repr_char quote c +:+ repr_chars quote r
  | EmptyString => EmptyString
  end.

(** [repr(s)] of a string: single quotes, unless the string has one and no
    double quote. *)
Definition str_repr (s : string) : string :=
  let quote := if contains SQUOTE s && negb (contains DQUOTE s)
               then DQUOTE else SQUOTE in
  String quote (repr_chars quote s +:+ String quote "").

Fixpoint py_repr (v : pyval) : string :=
  match v with
  | PNone => "None"
  | PBool true => "True"
  | PBool false => "False"
  | PInt z => int_repr z
  | PStr s => str_repr s
  | PList l => "[" +:+ join_items py_repr l +:+ "]"
  | PTuple l =>
      match l with
      | [x] => "(" +:+ py_repr x +:+ ",)"
      | _ => "(" +:+ join_items py_repr l +:+ ")"
      end
  | PDict d =>
      "{" +:+ join_items
                (fun kv => str_repr (fst kv) +:+ ": " +:+ py_repr (snd kv)) d
          +:+ "}"
  | PObj _ r => r
  | PFloat r => r
  end.

(** [str(v)] *)
Definition py_str (v : pyval) : string :=
  match v with
  | PStr s => s
  | PObj s _ => s
  | _ => py_repr v
  end.

(** ** Exceptions *)

(** An exception of class [Exception]: its class name and [str(e)]. *)
Record exn : Type := Exn { exn_class : string; exn_text : string }.

Inductive result (A : Type) : Type :=
| Ok (a : A)
| Raise (e : exn).
Arguments Ok {A} a.
Arguments Raise {A} e.

Definition bind {A B : Type} (r : result A) (k : A -> result B) : result B :=
  match r with
  | Ok a => k a
  | Raise e => Raise e
  end.

Notation "'try!' x ':=' r 'in' k" := (bind r (fun x => k))
  (at level 10, x name, r at level 100, k at level 200).

Definition KeyError (k : string) : exn := Exn "KeyError" (str_repr k).
Definition TypeError (text : string) : exn := Exn "TypeError" text.
Definition AttributeError (text : string) : exn := Exn "AttributeError" text.

(** [v[k]] *)
Definition getitem (v : pyval) (k : string) : result pyval :=
  match v with
  | PDict d =>
      match dict_get k d with
      | Some x => Ok x
      | None => Raise (KeyError k)
      end
  | _ => Raise (TypeError "object is not subscriptable by a string")
  end.

(** [v.get(k, default)] *)
Definition py_get (v : pyval) (k : string) (default : pyval) : result pyval :=
  match v with
  | PDict d =>
      match dict_get k d with
      | Some x => Ok x
      | None => Ok default
      end
  | _ => Raise (AttributeError "object has no attribute 'get'")
  end.

(** [v[k1]...[kn] = x] on a tree of dictionaries. *)
Fixpoint setitem_path (v : pyval) (path : list string) (x : pyval)
  : result pyval :=
  match path with
  | [] => Ok x
  | k :: path' =>
      match v with
      | PDict d =>
          match path' with
          | [] => Ok (PDict (dict_set k x d))
          | _ :: _ =>
              match dict_get k d with
              | Some inner =>
                  try! inner' := setitem_path inner path' x in
                  Ok (PDict (dict_set k inner' d))
              | None => Raise (KeyError k)
              end
          end
      | _ => Raise (TypeError "object does not support item assignment")
      end
  end.

(** ** Files *)

(** What a path names: a text file, or something [open] fails on. *)
Inductive fnode : Type :=
| File (content : string)
| Dir.

(** [dir / name] for a relative [name]. *)
Definition path_join (dir name : string) : string := dir +:+ "/" +:+ name.

(** The directory of a path: what comes before its last [/], nothing when
    the path has none or only starts with it. *)
Fixpoint dirname (path : string) : string :=
  match path with
  | String c r => if contains "/" r then String c (dirname r) else EmptyString
  | EmptyString => EmptyString
  end.

(** The path names a directory; the one with no name (the current
    directory, or the root) is always there. *)
Definition is_dir (fs : gmap string fnode) (dir : string) : bool :=
  match dir with
  | EmptyString => true
  | _ =>
      match fs !! dir with
      | Some Dir => true
      | _ => false
      end
  end.

(** [open(filepath, 'w')] succeeds: the directory of the path is there and
    the path does not name a directory. *)
Definition can_open_w (fs : gmap string fnode) (filepath : string) : bool :=
  is_dir fs (dirname filepath)
  && match fs !! filepath with
     | Some Dir => false
     | _ => true
     end.

(** The directories above a path, the outermost first. *)
Fixpoint ancestors_from (before rest : string) : list string :=
  match rest with
  | String c r =>
      (if Ascii.eqb c "/" && negb (String.eqb before "") then [before] else [])
      ++ ancestors_from (before +:+ String c "") r
  | EmptyString => []
  end.

Definition ancestors (path : string) : list string :=
  ancestors_from "" path.

(** [os.mkdir] on each path in turn, one that is a directory being left
    alone. *)
Fixpoint make_dirs (dirs : list string) (fs : gmap string fnode)
  : result (gmap string fnode) :=
  match dirs with
  | [] => Ok fs
  | dir :: rest =>
      match fs !! dir with
      | Some (File _) => Raise (Exn "NotADirectoryError" dir)
      | Some Dir => make_dirs rest fs
      | None => make_dirs rest (<[dir := Dir]> fs)
      end
  end.

(** [Path(dir).mkdir(parents=True, exist_ok=True)] *)
Definition mkdir_parents (dir : string) (fs : gmap string fnode)
  : result (gmap string fnode) :=
  match fs !! dir with
  | Some Dir => Ok fs
  | Some (File _) => Raise (Exn "FileExistsError" dir)
  | None => make_dirs (ancestors dir ++ [dir]) fs
  end.

(** [d.get(k, default)] on a dictionary. *)
Definition dict_get_or (k : string) (d : dict) (default : pyval) : pyval :=
  match dict_get k d with
  | Some x => x
  | None => default
  end.

Fixpoint mapM {A B : Type} (f : A -> result B) (l : list A) : result (list B) :=
  match l with
  | [] => Ok []
  | x :: l' =>
      try! y := f x in
      try! ys := mapM f l' in
      Ok (y :: ys)
  end.

(** ** The SDK of the remote service *)

Inductive entity_class : Type :=
| Team | User | Policy | Domain | Glossary | GlossaryTerm
| Database | DatabaseSchema | Table | DataProduct.

Inductive request_class : Type :=
| CreateDataProductRequest | CreateDomainRequest | CreateTeamRequest
| CreateUserRequest | CreatePolicyRequest.

Inductive client_method : Type :=
| create_or_update | create_or_update_domain | create_or_update_team
| create_or_update_user | create_or_update_policy.

(** An entity object a listing returns: what [model_dump()] and [dict()]
    give when the object has them ([None]: no such attribute), its
    [__dict__] when it has one, and [dict(entity)]. *)
Record sdk_entity : Type := {
  model_dump : option (result dict);
  dict_method : option (result dict);
  dunder_dict : option dict;
  as_dict : result dict
}.

(** The SDK, with the state of the client and of the service behind it:
    building a creation request from keyword arguments, submitting one, and
    listing the entities of a class up to a limit (the answer holds the
    [entities] attribute of the response, [None] when it has none). *)
Record sdk : Type := {
  server : Type;
  request : Type;
  new_request : request_class -> dict -> result request;
  call : client_method -> request -> server -> server * result unit;
  list_entities :
    entity_class -> Z -> server -> server * result (option (list sdk_entity))
}.

(** ** The exporter ([export.py]) *)

(** [json.dump(entity, f, ensure_ascii=False, default=str)] on a file
    opened for writing in UTF-8: the text that reaches the file, and the
    exception that ends the call when it does not complete. *)
Definition dumper : Type := pyval -> string * option exn.

Module Exporter.

Record t : Type := {
  config : pyval;
  export_stats : list (string * nat)
}.

(** [_ensure_output_dir]: [mkdir(parents=True, exist_ok=True)]. *)
Definition _ensure_output_dir (config : pyval) (fs : gmap string fnode)
  : result (string * gmap string fnode) :=
  try! export := getitem config "export" in
  try! output_dir := getitem export "output_dir" in
  match output_dir with
  | PStr dir =>
      try! fs := mkdir_parents dir fs in
      Ok (dir, fs)
  | _ => Raise (TypeError "expected str, bytes or os.PathLike object")
  end.

(** The loop of [_write_ndjson]: the text that reaches the file, and
    whether every entity went through.  A [json.dump] that raises ends the
    loop, and what it wrote before stays in the file. *)
Fixpoint write_entities (dump : dumper) (entities : list dict) : string * bool :=
  match entities with
  | [] => (EmptyString, true)
  | entity :: rest =>
      match dump (PDict entity) with
      | (text, None) =>
          let (more, done) := write_entities dump rest in
          (text +:+ String LF more, done)
      | (text, Some _) => (text, false)
      end
  end.

(** [_write_ndjson]: the file system afterwards and the count returned.
    When the file cannot be opened nothing is written; when it can, it is
    emptied first. *)
Definition _write_ndjson (dump : dumper) (entities : list dict)
    (filename output_dir : string) (fs : gmap string fnode)
  : gmap string fnode * nat :=
  let filepath := path_join output_dir (filename +:+ ".ndjson") in
  if can_open_w fs filepath then
    match write_entities dump entities with
    | (text, true) => (<[filepath := File text]> fs, List.length entities)
    | (text, false) => (<[filepath := File text]> fs, 0%nat)
    end
  else (fs, 0%nat).

(** The conversion of one entity to a dictionary. *)
Definition entity_to_dict (entity : sdk_entity) : result dict :=
  match model_dump entity with
  | Some r => r
  | None =>
      match dict_method entity with
      | Some r => r
      | None =>
          match dunder_dict entity with
          | Some d => Ok d
          | None => as_dict entity
          end
      end
  end.

Section WithSdk.
Variable K : sdk.
Variable dump : dumper.

(** The body of the [try] in [_export_entity_type]. *)
Definition export_attempt (entity_name : string) (entity_class : entity_class)
    (output_dir : string) (fs : gmap string fnode) (srv : server K)
  : gmap string fnode * server K * result nat :=
  match list_entities K entity_class 10000 srv with
  | (srv', Raise e) => (fs, srv', Raise e)
  | (srv', Ok entities_response) =>
      let entities :=
        match entities_response with
        | Some entities => entities
        | None => []
        end in
      match mapM entity_to_dict entities with
      | Raise e => (fs, srv', Raise e)
      | Ok entity_dicts =>
          let (fs', count) :=
            _write_ndjson dump entity_dicts entity_name output_dir fs in
          (fs', srv', Ok count)
      end
  end.

Definition _export_entity_type (entity_name : string)
    (entity_class : entity_class) (output_dir : string)
    (fs : gmap string fnode) (srv : server K)
  : gmap string fnode * server K * nat :=
  match export_attempt entity_name entity_class output_dir fs srv with
  | (fs', srv', Ok count) => (fs', srv', count)
  | (fs', srv', Raise _) => (fs', srv', 0%nat)
  end.

Definition entity_mappings : list (string * entity_class) :=
  [("teams", Team); ("users", User); ("policies", Policy);
   ("domains", Domain); ("glossaries", Glossary);
   ("glossary_terms", GlossaryTerm); ("databases", Database);
   ("database_schemas", DatabaseSchema); ("tables", Table);
   ("data_products", DataProduct)].

(** The working set. *)
Definition entities_to_export (config : pyval)
    (selected_entities : option (list string))
  : result (list (string * entity_class)) :=
  match selected_entities with
  | Some ((_ :: _) as names) =>
      Ok (dict_of_pairs
            (omap (fun name => pair name <$> dict_get name entity_mappings) names))
  | _ =>
      try! export := getitem config "export" in
      try! export_config := getitem export "entities" in
      match export_config with
      | PDict flags =>
          Ok (List.filter
                (fun entry => truthy (dict_get_or (fst entry) flags (PBool false)))
                entity_mappings)
      | _ => Raise (AttributeError "object has no attribute 'get'")
      end
  end.

(** The loop of [export_all] over the working set. *)
Fixpoint export_loop (todo : list (string * entity_class)) (output_dir : string)
    (self : t) (total_exported : nat) (fs : gmap string fnode) (srv : server K)
  : t * nat * gmap string fnode * server K :=
  match todo with
  | [] => (self, total_exported, fs, srv)
  | (entity_name, entity_class) :: rest =>
      let '(fs', srv', count) :=
        _export_entity_type entity_name entity_class output_dir fs srv in
      export_loop rest output_dir
        {| config := config self;
           export_stats := dict_set entity_name count (export_stats self) |}
        (total_exported + count)%nat fs' srv'
  end.

(** [export_all], up to the end of its loop: the exporter, the total, the
    files and the service afterwards.  The console output and the summary
    written after the loop are left out. *)
Definition export_all (selected_entities : option (list string)) (self : t)
    (fs : gmap string fnode) (srv : server K)
  : result (t * nat * gmap string fnode * server K) :=
  try! openmetadata := getitem (config self) "openmetadata" in
  try! server_url := getitem openmetadata "server_url" in
  try! prepared := _ensure_output_dir (config self) fs in
  try! todo := entities_to_export (config self) selected_entities in
  Ok (export_loop todo (fst prepared) self 0%nat (snd prepared) srv).

End WithSdk.

End Exporter.

(** ** The importer ([import.py]) *)

(** What [json.loads] does with a line: a value, [json.JSONDecodeError],
    or an exception of another class. *)
Inductive decoded : Type :=
| Decoded (v : pyval)
| JSONDecodeError
| OtherError.

(** The stand-in as a decoder. *)
Definition json_decode (s : string) : decoded :=
  match json_loads s with
  | Scanned v _ => Decoded v
  | Malformed => JSONDecodeError
  | TooDeep => OtherError
  end.

(** The stand-in as a [dumper]. *)
Definition json_dump : dumper := fun v => (encode v, None).

(** What a line contributes to the loaded list: its value when it is not
    blank and decodes. *)
Definition parsed_line (loads : string -> decoded) (line : string)
  : option pyval :=
  if String.eqb (strip line) "" then None
  else
    match loads (strip line) with
    | Decoded v => Some v
    | _ => None
    end.

Module Importer.

Record t : Type := {
  config : pyval;
  import_stats : list (string * nat);
  errors : list string
}.

(** [if os.getenv(name): config[path] = conv(os.getenv(name))] *)
Definition override (environ : gmap string string) (name : string)
    (path : list string) (conv : string -> pyval) (config : pyval)
  : result pyval :=
  match environ !! name with
  | Some value =>
      if String.eqb value "" then Ok config
      else setitem_path config path (conv value)
  | None => Ok config
  end.

Definition is_true (value : string) : pyval :=
  PBool (String.eqb (lower value) "true").

Definition _apply_env_overrides (environ : gmap string string) (config : pyval)
  : result pyval :=
  try! config := override environ "OPENMETADATA_SERVER_URL"
                   ["openmetadata"; "server_url"] PStr config in
  try! config := override environ "OPENMETADATA_JWT_TOKEN"
                   ["openmetadata"; "auth"; "jwt_token"] PStr config in
  try! config := override environ "IMPORT_INPUT_DIR"
                   ["import"; "input_dir"] PStr config in
  try! config := override environ "IMPORT_UPDATE_EXISTING"
                   ["import"; "update_existing"] is_true config in
  try! config := override environ "IMPORT_SKIP_ON_ERROR"
                   ["import"; "skip_on_error"] is_true config in
  override environ "LOG_LEVEL" ["logging"; "level"] PStr config.

Section Loader.
Variable loads : string -> decoded.

(** The loop of [_load_ndjson] over the lines; [None] when a line raises
    something the inner handler does not catch. *)
Fixpoint load_lines (lines : list string) (entities : list pyval)
  : option (list pyval) :=
  match lines with
  | [] => Some entities
  | line :: rest =>
      let line := strip line in
      if String.eqb line "" then load_lines rest entities
      else
        match loads line with
        | Decoded entity => load_lines rest (entities ++ [entity])
        | JSONDecodeError => load_lines rest entities
        | OtherError => None
        end
  end.

Definition _load_ndjson (fs : gmap string fnode) (filepath : string)
  : list pyval :=
  match fs !! filepath with
  | Some (File content) =>
      match load_lines (readlines content) [] with
      | Some entities => entities
      | None => []
      end
  | Some Dir => []
  | None => []
  end.

End Loader.

Definition data_product_fields : gset string :=
  {[ "name"; "displayName"; "description"; "fullyQualifiedName";
     "owners"; "experts"; "domain"; "assets"; "tags"; "extension" ]}.

Definition domain_fields : gset string :=
  {[ "name"; "displayName"; "description"; "fullyQualifiedName";
     "domainType"; "parent"; "owners"; "experts"; "tags"; "extension" ]}.

Definition team_fields : gset string :=
  {[ "name"; "displayName"; "description"; "fullyQualifiedName";
     "teamType"; "email"; "parents"; "users"; "owners"; "defaultRoles" ]}.

(** [{k: v for k, v in entity_data.items() if k in allowed_fields}] *)
Definition allowed_items (allowed_fields : gset string) (entity_data : dict)
  : dict :=
  List.filter (fun kv => bool_decide (fst kv ∈ allowed_fields)) entity_data.

Definition no_items : exn := AttributeError "object has no attribute 'items'".

Definition _filter_entity_fields (entity_data : pyval) (entity_type : string)
  : result pyval :=
  if String.eqb entity_type "data_products" then
    match entity_data with
    | PDict d =>
        let filtered_data := allowed_items data_product_fields d in
        match dict_get "domain" filtered_data with
        | Some (PDict domain) =>
            Ok (PDict
                  (dict_set "domain"
                     (dict_get_or "fullyQualifiedName" domain
                        (PStr (py_str (dict_get_or "name" domain (PStr "")))))
                     filtered_data))
        | _ => Ok (PDict filtered_data)
        end
    | _ => Raise no_items
    end
  else if String.eqb entity_type "domains" then
    match entity_data with
    | PDict d => Ok (PDict (allowed_items domain_fields d))
    | _ => Raise no_items
    end
  else if String.eqb entity_type "teams" then
    match entity_data with
    | PDict d => Ok (PDict (allowed_items team_fields d))
    | _ => Raise no_items
    end
  else Ok entity_data.

(** The request class and the client method of an entity type. *)
Definition creation_path (entity_type : string)
  : option (request_class * client_method) :=
  if String.eqb entity_type "data_products" then
    Some (CreateDataProductRequest, create_or_update)
  else if String.eqb entity_type "domains" then
    Some (CreateDomainRequest, create_or_update_domain)
  else if String.eqb entity_type "teams" then
    Some (CreateTeamRequest, create_or_update_team)
  else if String.eqb entity_type "users" then
    Some (CreateUserRequest, create_or_update_user)
  else if String.eqb entity_type "policies" then
    Some (CreatePolicyRequest, create_or_update_policy)
  else None.

Section WithSdk.
Variable K : sdk.
Variable loads : string -> decoded.

(** The body of the [try] in [_import_entity]. *)
Definition import_attempt (entity_data : pyval) (entity_type : string)
    (srv : server K) : server K * result bool :=
  match _filter_entity_fields entity_data entity_type with
  | Raise e => (srv, Raise e)
  | Ok filtered_data =>
      match creation_path entity_type with
      | Some (cls, method) =>
          match filtered_data with
          | PDict kwargs =>
              match new_request K cls kwargs with
              | Ok req =>
                  match call K method req srv with
                  | (srv', Ok _) => (srv', Ok true)
                  | (srv', Raise e) => (srv', Raise e)
                  end
              | Raise e => (srv, Raise e)
              end
          | _ => (srv, Raise (TypeError "argument after ** must be a mapping"))
          end
      | None => (srv, Ok false)
      end
  end.

Definition error_message (entity_type : string) (e : exn) : string :=
  "Error importing " +:+ entity_type +:+ " entity: " +:+ exn_text e.

Definition _import_entity (entity_data : pyval) (entity_type : string)
    (self : t) (srv : server K) : t * server K * result bool :=
  match import_attempt entity_data entity_type srv with
  | (srv', Ok done) => (self, srv', Ok done)
  | (srv', Raise e) =>
      let error_msg := error_message entity_type e in
      let self' := {| config := config self;
                      import_stats := import_stats self;
                      errors := errors self ++ [error_msg] |} in
      match (try! import := getitem (config self') "import" in
             py_get import "skip_on_error" (PBool true)) with
      | Ok skip_on_error =>
          if negb (truthy skip_on_error) then (self', srv', Raise e)
          else (self', srv', Ok false)
      | Raise e' => (self', srv', Raise e')
      end
  end.

(** The loop of [_import_entity_type] over the entities of a file. *)
Fixpoint import_loop (entities : list pyval) (entity_type : string)
    (success_count : nat) (self : t) (srv : server K)
  : t * server K * result nat :=
  match entities with
  | [] => (self, srv, Ok success_count)
  | entity :: rest =>
      match _import_entity entity entity_type self srv with
      | (self', srv', Ok done) =>
          import_loop rest entity_type
            (if done then S success_count else success_count) self' srv'
      | (self', srv', Raise e) => (self', srv', Raise e)
      end
  end.

Definition _import_entity_type (entity_type input_dir : string)
    (fs : gmap string fnode) (self : t) (srv : server K)
  : t * server K * result nat :=
  let filepath := path_join input_dir (entity_type +:+ ".ndjson") in
  match fs !! filepath with
  | None => (self, srv, Ok 0%nat)
  | Some _ =>
      match _load_ndjson loads fs filepath with
      | [] => (self, srv, Ok 0%nat)
      | entities => import_loop entities entity_type 0%nat self srv
      end
  end.

(** The entity types named by [import_order], as the loop of [import_all]
    and the [join] before it take them. *)
Definition import_order_of (v : pyval) : result (list string) :=
  let item x := match x with
                | PStr s => Ok s
                | _ => Raise (TypeError "sequence item: expected str instance")
                end in
  match v with
  | PList l | PTuple l => mapM item l
  | PDict d => Ok (map fst d)
  | PStr s => Ok (map (fun c => String c "") (list_ascii_of_string s))
  | _ => Raise (TypeError "can only join an iterable")
  end.

(** The loop of [import_all] over the entity types. *)
Fixpoint import_types (import_order : list string) (input_dir : string)
    (fs : gmap string fnode) (total_imported : nat) (self : t) (srv : server K)
  : t * server K * result nat :=
  match import_order with
  | [] => (self, srv, Ok total_imported)
  | entity_type :: rest =>
      match _import_entity_type entity_type input_dir fs self srv with
      | (self', srv', Ok count) =>
          import_types rest input_dir fs (total_imported + count)%nat
            {| config := config self';
               import_stats := dict_set entity_type count (import_stats self');
               errors := errors self' |}
            srv'
      | (self', srv', Raise e) => (self', srv', Raise e)
      end
  end.

(** [import_all], up to the end of its loop; the console output and the
    summary written after the loop are left out. *)
Definition import_all (fs : gmap string fnode) (self : t) (srv : server K)
  : t * server K * result nat :=
  match (try! openmetadata := getitem (config self) "openmetadata" in
         try! server_url := getitem openmetadata "server_url" in
         try! import := getitem (config self) "import" in
         try! input_dir := getitem import "input_dir" in
         match input_dir with
         | PStr dir =>
             match fs !! dir with
             | None => Raise (Exn "SystemExit" "1")
             | Some _ =>
                 try! order := getitem import "import_order" in
                 try! import_order := import_order_of order in
                 Ok (dir, import_order)
             end
         | _ => Raise (TypeError "expected str, bytes or os.PathLike object")
         end) with
  | Ok (dir, import_order) => import_types import_order dir fs 0%nat self srv
  | Raise e => (self, srv, Raise e)
  end.

End WithSdk.

End Importer.

(** ** Configurations *)

(** [config[k1][k2]] *)
Definition getitem2 (config : pyval) (k1 k2 : string) : result pyval :=
  try! section := getitem config k1 in
  getitem section k2.

Definition is_dict (v : option pyval) : bool :=
  match v with
  | Some (PDict _) => true
  | _ => false
  end.

(** The configuration has the sections the overrides write to:
    [openmetadata] with [auth] in it, [import] and [logging]. *)
Definition config_has_sections (config : pyval) : bool :=
  match config with
  | PDict d =>
      match dict_get "openmetadata" d with
      | Some (PDict om) => is_dict (dict_get "auth" om)
      | _ => false
      end
      && is_dict (dict_get "import" d)
      && is_dict (dict_get "logging" d)
  | _ => false
  end.

(** The sections of a configuration, the [import] section named. *)
Definition sections (config : pyval) (import : dict) : Prop :=
  exists d om auth logging,
    config = PDict d
    /\ dict_get "openmetadata" d = Some (PDict om)
    /\ dict_get "auth" om = Some (PDict auth)
    /\ dict_get "import" d = Some (PDict import)
    /\ dict_get "logging" d = Some (PDict logging).

(** The configuration of [TestOpenMetadataImporter.setup_method]. *)
Definition test_import_config : pyval :=
  PDict
    [("openmetadata",
      PDict [("server_url", PStr "http://test.example.com");
             ("auth", PDict [("jwt_token", PStr "test_token")])]);
     ("import",
      PDict [("input_dir", PStr "./test_imports");
             ("update_existing", PBool true);
             ("skip_on_error", PBool true);
             ("import_order",
              PList [PStr "teams"; PStr "domains"; PStr "data_products"])]);
     ("logging", PDict [("level", PStr "INFO")])].

(** The configuration of [TestOpenMetadataExporter.setup_method]. *)
Definition test_export_config : pyval :=
  PDict
    [("openmetadata",
      PDict [("server_url", PStr "http://test.example.com");
             ("auth", PDict [("jwt_token", PStr "test_token")])]);
     ("export",
      PDict [("output_dir", PStr "./test_exports");
             ("entities",
              PDict [("domains", PBool true); ("teams", PBool true);
                     ("data_products", PBool false)]);
             ("selective",
              PDict [("domains", PList []);
                     ("linked_data_products_only", PBool false);
                     ("linked_assets_only", PBool false)]);
             ("batch_size", PInt 10)]);
     ("logging", PDict [("level", PStr "INFO")])].

(** The environment of [test_env_overrides_import]. *)
Definition test_environ : gmap string string :=
  {[ "IMPORT_INPUT_DIR" := "/custom/import/dir";
     "IMPORT_SKIP_ON_ERROR" := "false" ]}.

(** ** Paths of keys *)

(** [v[k1]...[kn]] *)
Fixpoint getitem_path (v : pyval) (path : list string) : result pyval :=
  match path with
  | [] => Ok v
  | k :: path' =>
      try! inner := getitem v k in
      getitem_path inner path'
  end.






(** ** The client and the rest of the SDK *)

Definition exit_1 : exn := Exn "SystemExit" "1".

(** The keyword arguments of [OpenMetadataConnection]; [securityConfig]
    holds the [jwtToken] of the [OpenMetadataJWTClientConfig]. *)
Record connection : Type := {
  hostPort : pyval;
  authProvider : option string;
  securityConfig : option pyval
}.

(** The SDK with what the bulk deletion uses besides the listing: building
    a client from a connection (the constructors of the token
    configuration, of the connection and of the client, each of which may
    raise), reading an attribute of an entity, and deleting an entity by
    its identifier. *)
Record sdk_admin : Type := {
  base :> sdk;
  open_client : connection -> result (server base);
  getattr : sdk_entity -> string -> result pyval;
  delete : entity_class -> pyval -> server base -> server base * result unit
}.

(** ** The overrides of the export tool ([export.py]) *)

Module ExportTool.

Definition _apply_env_overrides (environ : gmap string string) (config : pyval)
  : result pyval :=
  try! config := Importer.override environ "OPENMETADATA_SERVER_URL"
                   ["openmetadata"; "server_url"] PStr config in
  try! config := Importer.override environ "OPENMETADATA_JWT_TOKEN"
                   ["openmetadata"; "auth"; "jwt_token"] PStr config in
  Importer.override environ "EXPORT_OUTPUT_DIR"
    ["export"; "output_dir"] PStr config.

End ExportTool.

(** ** The dry run of the import tool ([import.py]) *)

(** [for x in v] *)
Definition py_iter (v : pyval) : result (list pyval) :=
  match v with
  | PList l | PTuple l => Ok l
  | PDict d => Ok (map (fun kv => PStr (fst kv)) d)
  | PStr s => Ok (map (fun c => PStr (String c "")) (list_ascii_of_string s))
  | _ => Raise (TypeError "object is not iterable")
  end.

Module ImportTool.

(** What the dry run prints after its banner. *)
Inductive console_line : Type :=
| WouldImport (count : nat) (entity_type : string)
| FileNotFound (filepath : string)
| TotalToImport (total : nat).

Section WithLoader.
Variable loads : string -> decoded.

(** The loop of the dry run over [import_order]. *)
Fixpoint dry_run_loop (import_order : list pyval) (input_path : string)
    (fs : gmap string fnode) (total : nat) : list console_line * nat :=
  match import_order with
  | [] => ([], total)
  | et :: rest =>
      let filepath := path_join input_path (py_str et +:+ ".ndjson") in
      match fs !! filepath with
      | Some _ =>
          let entities := Importer._load_ndjson loads fs filepath in
          let (lines, total') :=
            dry_run_loop rest input_path fs (total + List.length entities)%nat in
          (WouldImport (List.length entities) (py_str et) :: lines, total')
      | None => dry_run_loop rest input_path fs total
      end
  end.

(** The [if dry_run:] block of [main]. *)
Definition dry_run (config : pyval) (entity_type : option string)
    (fs : gmap string fnode) : result (list console_line) :=
  try! import := getitem config "import" in
  try! input_dir := getitem import "input_dir" in
  match input_dir with
  | PStr input_path =>
      match entity_type with
      | Some (String _ _ as entity_type) =>
          let filepath := path_join input_path (entity_type +:+ ".ndjson") in
          match fs !! filepath with
          | Some _ =>
              let entities := Importer._load_ndjson loads fs filepath in
              Ok [WouldImport (List.length entities) entity_type]
          | None => Ok [FileNotFound filepath]
          end
      | _ =>
          try! import := getitem config "import" in
          try! order := getitem import "import_order" in
          try! import_order := py_iter order in
          let (lines, total) := dry_run_loop import_order input_path fs 0%nat in
          Ok (lines ++ [TotalToImport total])
      end
  | _ => Raise (TypeError "expected str, bytes or os.PathLike object")
  end.

End WithLoader.

End ImportTool.

(** ** The bulk deletion ([delete_all_domains.py]) *)

Module DeleteAllDomains.

Section WithSdk.
Variable F : sdk_admin.

(** The body of the [try] in the loop. *)
Definition delete_attempt (domain : sdk_entity) (srv : server F)
  : server F * result unit :=
  match (try! name := getattr F domain "fullyQualifiedName" in
         getattr F domain "id") with
  | Ok entity_id => delete F Domain entity_id srv
  | Raise e => (srv, Raise e)
  end.

(** The loop over the listed domains; the handler reads
    [domain.fullyQualifiedName] for its message. *)
Fixpoint delete_loop (entities : list sdk_entity) (srv : server F)
  : server F * result unit :=
  match entities with
  | [] => (srv, Ok tt)
  | domain :: rest =>
      match delete_attempt domain srv with
      | (srv', Ok _) => delete_loop rest srv'
      | (srv', Raise _) =>
          match getattr F domain "fullyQualifiedName" with
          | Ok _ => delete_loop rest srv'
          | Raise e => (srv', Raise e)
          end
      end
  end.

(** The script: the service afterwards when it runs to its end, the
    exception that ends it otherwise. *)
Definition main (environ : gmap string string) : result (server F) :=
  match environ !! "OPENMETADATA_SERVER_URL",
        environ !! "OPENMETADATA_JWT_TOKEN" with
  | Some (String _ _ as server_url), Some (String _ _ as jwt_token) =>
      try! metadata :=
        open_client F {| hostPort := PStr server_url;
                         authProvider := Some "openmetadata";
                         securityConfig := Some (PStr jwt_token) |} in
      match list_entities F Domain 10000 metadata with
      | (_, Raise e) => Raise e
      | (_, Ok None) => Raise exit_1
      | (metadata, Ok (Some entities)) =>
          match delete_loop entities metadata with
          | (metadata, Ok _) => Ok metadata
          | (_, Raise e) => Raise e
          end
      end
  | _, _ => Raise exit_1
  end.

End WithSdk.

End DeleteAllDomains.

(** ** Counts *)

(** The number of entities [_load_ndjson] finds in the file of a type. *)
Definition loaded_count (loads : string -> decoded) (fs : gmap string fnode)
    (input_dir entity_type : string) : nat :=
  List.length
    (Importer._load_ndjson loads fs
       (path_join input_dir (entity_type +:+ ".ndjson"))).

(** The statistics after [stats[entity_type] = count] for each count in
    turn. *)
Definition record_counts (stats : list (string * nat))
    (counts : list (string * nat)) : list (string * nat) :=
  fold_left (fun d kv => dict_set (fst kv) (snd kv) d) counts stats.

(** ** Failures and selections of the exporter *)

(** Exporting the type fails: the listing raises, the conversion of an
    entity to a dictionary raises, the file cannot be opened, or a
    [json.dump] raises. *)
Definition export_fails (K : sdk) (dump : dumper) (entity_name : string)
    (entity_class : entity_class) (output_dir : string)
    (fs : gmap string fnode) (srv : server K) : Prop :=
  match list_entities K entity_class 10000 srv with
  | (_, Raise _) => True
  | (_, Ok entities_response) =>
      match mapM Exporter.entity_to_dict
              match entities_response with
              | Some entities => entities
              | None => []
              end with
      | Raise _ => True
      | Ok entity_dicts =>
          can_open_w fs (path_join output_dir (entity_name +:+ ".ndjson"))
          = false
          \/ (Exporter.write_entities dump entity_dicts).2 = false
      end
  end.

(** The names, each at the place where it comes first. *)
Fixpoint first_occurrences (names : list string) : list string :=
  match names with
  | [] => []
  | name :: rest =>
      name :: List.filter (fun other => negb (String.eqb other name))
                (first_occurrences rest)
  end.

(** ** The way through a file *)

(** The text [json.dump] writes for the mapping. *)
Definition dumped_text (dump : dumper) (entity : dict) : string :=
  (dump (PDict entity)).1.

(** [json.dump] writes the mapping completely and on one line. *)
Definition dumped_on_a_line (dump : dumper) (entity : dict) : Prop :=
  (dump (PDict entity)).2 = None
  /\ no_newline (dumped_text dump entity) = true.


(** What an export of one type leaves at the file of the type: the file as
    it was, with a count of 0, when nothing could be written; the file
    written in part, with a count of 0, when a [json.dump] raised; or the
    lines of as many entities as the count. *)
Definition exported_file (dump : dumper) (fs fs' : gmap string fnode)
    (filepath : string) (count : nat) : Prop :=
  count = 0%nat /\ fs' !! filepath = fs !! filepath
  \/ exists (entity_dicts : list dict) (text : string) (done : bool),
       Exporter.write_entities dump entity_dicts = (text, done)
       /\ fs' !! filepath = Some (File text)
       /\ count = if done then List.length entity_dicts else 0%nat.


(** ** A stand-in for the SDK

    In the manner of the [Mock] client of [test_migration.py]: it records
    the calls, answers listings from a table, and refuses to build a request
    without a [name], as a required field does. *)

Record mock_server : Type := {
  created : list (client_method * dict);
  listed : list entity_class;
  catalog : entity_class -> result (option (list sdk_entity))
}.

Definition mock_new_request (cls : request_class) (kwargs : dict)
  : result dict :=
  match dict_get "name" kwargs with
  | Some _ => Ok kwargs
  | None => Raise (Exn "ValidationError" "name: Field required")
  end.

Definition mock_call (method : client_method) (req : dict) (srv : mock_server)
  : mock_server * result unit :=
  ({| created := created srv ++ [(method, req)];
      listed := listed srv;
      catalog := catalog srv |}, Ok tt).

Definition mock_list_entities (cls : entity_class) (limit : Z)
    (srv : mock_server)
  : mock_server * result (option (list sdk_entity)) :=
  ({| created := created srv;
      listed := listed srv ++ [cls];
      catalog := catalog srv |}, catalog srv cls).

Definition mock_sdk : sdk := {|
  server := mock_server;
  request := dict;
  new_request := mock_new_request;
  call := mock_call;
  list_entities := mock_list_entities
|}.

Definition pydantic_entity (d : dict) : sdk_entity := {|
  model_dump := Some (Ok d);
  dict_method := None;
  dunder_dict := None;
  as_dict := Ok d
|}.

(** A stand-in that keeps a log of the calls: the listing answers with the
    given domains, an attribute is read from what [model_dump] gives, and
    the deletion of the identifier [d2] is refused. *)
Definition log_sdk (domains : list sdk_entity) : sdk := {|
  server := list string;
  request := unit;
  new_request := fun _ _ => Ok tt;
  call := fun _ _ log => (log, Ok tt);
  list_entities := fun _ _ log => (log ++ ["list"], Ok (Some domains))
|}.

Definition log_admin (domains : list sdk_entity) : sdk_admin := {|
  base := log_sdk domains;
  open_client := fun _ => Ok [];
  getattr := fun entity name =>
    match model_dump entity with
    | Some (Ok d) =>
        match dict_get name d with
        | Some v => Ok v
        | None => Raise (AttributeError name)
        end
    | _ => Raise (AttributeError name)
    end;
  delete := fun _ entity_id log =>
    (log ++ ["delete " +:+ py_str entity_id],
     if String.eqb (py_str entity_id) "d2"
     then Raise (Exn "APIError" "domain is not empty")
     else Ok tt)
|}.

(** * Properties *)

(** ** Dictionaries *)

Lemma dict_get_filter {V : Type} (p : string -> bool) (k : string)
    (d : list (string * V)) :
  dict_get k (List.filter (fun kv => p (fst kv)) d)
  = if p k then dict_get k d else None.
Proof.
  induction d as [|[k' v] d IH]; simpl.
  - by destruct (p k).
  - destruct (p k') eqn:Hk'; simpl; destruct (String.eqb_spec k' k) as [->|Hne].
    + by rewrite Hk'.
    + exact IH.
    + rewrite Hk' in IH |- *. exact IH.
    + exact IH.
Qed.

Lemma dict_get_set_eq {V : Type} (k : string) (v : V) (d : list (string * V)) :
  dict_get k (dict_set k v d) = Some v.
Proof.
  induction d as [|[k' v'] d IH]; simpl.
  - by rewrite String.eqb_refl.
  - destruct (String.eqb_spec k' k) as [->|Hne]; simpl.
    + by rewrite String.eqb_refl.
    + destruct (String.eqb_spec k' k); [done | exact IH].
Qed.

Lemma dict_get_set_ne {V : Type} (k k' : string) (v : V)
    (d : list (string * V)) :
  k <> k' -> dict_get k' (dict_set k v d) = dict_get k' d.
Proof.
  intros Hne. induction d as [|[k0 v0] d IH]; simpl.
  - by destruct (String.eqb_spec k k').
  - destruct (String.eqb_spec k0 k) as [->|Hne0]; simpl.
    + destruct (String.eqb_spec k k'); [done | reflexivity].
    + destruct (String.eqb_spec k0 k'); [reflexivity | exact IH].
Qed.

Lemma allowed_items_get (allowed : gset string) (k : string) (d : dict) :
  dict_get k (Importer.allowed_items allowed d)
  = if bool_decide (k ∈ allowed) then dict_get k d else None.
Proof.
  exact (dict_get_filter (fun k0 : string => bool_decide (k0 ∈ allowed)) k d).
Qed.

Lemma domain_fields_spec (k : string) :
  k ∈ Importer.domain_fields <->
  In k ["name"; "displayName"; "description"; "fullyQualifiedName";
        "domainType"; "parent"; "owners"; "experts"; "tags"; "extension"].
Proof.
  unfold Importer.domain_fields. rewrite !elem_of_union, !elem_of_singleton.
  simpl. intuition congruence.
Qed.

Lemma keys_unique_NoDup (ks : list string) : keys_unique ks = true -> NoDup ks.
Proof.
  induction ks as [|k ks IH]; cbn [keys_unique]; [constructor|].
  intros H. apply andb_prop in H as [Hk Hks]. constructor; [|by apply IH].
  intros Hin. apply negb_true_iff in Hk.
  assert (existsb (String.eqb k) ks = true); [|congruence].
  apply existsb_exists. exists k. split; [by apply list_elem_of_In|].
  apply String.eqb_refl.
Qed.

Lemma dict_set_fresh {V : Type} (k : string) (v : V) (d : list (string * V)) :
  k ∉ map fst d -> dict_set k v d = d ++ [(k, v)].
Proof.
  induction d as [|[k' v'] d IH]; cbn [dict_set map fst app]; [done|].
  intros Hk. apply not_elem_of_cons in Hk as [Hne Hk].
  destruct (String.eqb_spec k' k) as [->|_]; [done|]. by rewrite IH.
Qed.

Lemma fold_dict_set_unique {V : Type} (d acc : list (string * V)) :
  NoDup (map fst (acc ++ d)) ->
  fold_left (fun d kv => dict_set (fst kv) (snd kv) d) d acc = acc ++ d.
Proof.
  revert acc. induction d as [|[k v] d IH]; intros acc Hnd; cbn [fold_left].
  - by rewrite app_nil_r.
  - cbn [fst snd]. rewrite dict_set_fresh.
    + rewrite IH; rewrite <- app_assoc; [reflexivity | exact Hnd].
    + rewrite map_app in Hnd. apply NoDup_app in Hnd as (_ & Hdisj & _).
      intros Hin. apply (Hdisj k Hin). cbn [map fst]. apply elem_of_cons.
      by left.
Qed.

Lemma dict_of_pairs_unique {V : Type} (d : list (string * V)) :
  keys_unique (map fst d) = true -> dict_of_pairs d = d.
Proof.
  intros H. apply (fold_dict_set_unique d []). by apply keys_unique_NoDup.
Qed.

Lemma NoDup_keys_unique (ks : list string) : NoDup ks -> keys_unique ks = true.
Proof.
  induction 1 as [|k ks Hk _ IH]; [reflexivity|].
  cbn [keys_unique]. rewrite IH, andb_true_r. apply negb_true_iff.
  destruct (existsb (String.eqb k) ks) eqn:E; [|reflexivity].
  apply existsb_exists in E as (k' & Hin & Hkk').
  apply String.eqb_eq in Hkk'. subst k'.
  exfalso. apply Hk. now apply list_elem_of_In.
Qed.

Lemma dict_set_keys {V : Type} (k : string) (v : V) (d : list (string * V)) :
  is_Some (dict_get k d) -> map fst (dict_set k v d) = map fst d.
Proof.
  induction d as [|[k' v'] d IH]; cbn [dict_get dict_set].
  - intros [? [=]].
  - destruct (String.eqb k' k) eqn:E.
    + intros _. apply String.eqb_eq in E. now subst.
    + intros H. cbn [map fst]. now rewrite IH.
Qed.

Lemma NoDup_keys_filter {V : Type} (p : string * V -> bool)
    (d : list (string * V)) :
  NoDup (map fst d) -> NoDup (map fst (List.filter p d)).
Proof.
  induction d as [|[k v] d IH]; cbn [List.filter map fst]; [auto|].
  intros H. apply NoDup_cons in H as [Hk Hd].
  destruct (p (k, v)); [|now apply IH]. cbn [map fst].
  apply NoDup_cons. split; [|now apply IH].
  intros Hin. apply Hk. apply list_elem_of_In. apply list_elem_of_In in Hin.
  apply in_map_iff in Hin as (kv & Hkv & Hin). apply filter_In in Hin as [Hin _].
  apply in_map_iff. now exists kv.
Qed.

Lemma dict_set_keys_In {V : Type} (k k' : string) (v : V)
    (d : list (string * V)) :
  In k' (map fst (dict_set k v d)) <-> k' = k \/ In k' (map fst d).
Proof.
  induction d as [|[k0 v0] d IH]; cbn [dict_set map fst In].
  - intuition.
  - destruct (String.eqb_spec k0 k) as [->|Hne]; cbn [map fst In].
    + intuition.
    + rewrite IH. intuition.
Qed.

Lemma dict_set_NoDup {V : Type} (k : string) (v : V) (d : list (string * V)) :
  NoDup (map fst d) -> NoDup (map fst (dict_set k v d)).
Proof.
  induction d as [|[k0 v0] d IH]; cbn [dict_set map fst].
  - intros _. apply NoDup_singleton.
  - intros H. apply NoDup_cons in H as [Hk Hd].
    destruct (String.eqb_spec k0 k) as [->|Hne]; cbn [map fst].
    + apply NoDup_cons. auto.
    + apply NoDup_cons. split; [|now apply IH].
      intros Hin. apply list_elem_of_In, dict_set_keys_In in Hin as [Heq|Hin];
        [congruence|]. apply Hk. now apply list_elem_of_In.
Qed.

Lemma record_counts_NoDup {V : Type} (pairs acc : list (string * V)) :
  NoDup (map fst acc) ->
  NoDup (map fst (fold_left (fun d kv => dict_set (fst kv) (snd kv) d) pairs acc)).
Proof.
  revert acc. induction pairs as [|[k v] pairs IH]; intros acc H;
    cbn [fold_left]; [exact H|].
  apply IH. now apply dict_set_NoDup.
Qed.

Lemma dict_get_In {V : Type} (k : string) (v : V) (d : list (string * V)) :
  NoDup (map fst d) -> In (k, v) d -> dict_get k d = Some v.
Proof.
  induction d as [|[k0 v0] d IH]; cbn [map fst In dict_get]; [tauto|].
  intros H. apply NoDup_cons in H as [Hk Hd]. intros [[= -> ->]|Hin].
  - now rewrite String.eqb_refl.
  - destruct (String.eqb_spec k0 k) as [->|Hne]; [|auto].
    exfalso. apply Hk. apply list_elem_of_In, in_map_iff. now exists (k, v).
Qed.

Lemma is_Some_dict_get_set {V : Type} (k k' : string) (v : V)
    (d : list (string * V)) :
  is_Some (dict_get k' (dict_set k v d)) <-> k' = k \/ is_Some (dict_get k' d).
Proof.
  destruct (String.eqb_spec k k') as [->|Hne].
  - rewrite dict_get_set_eq. split; [by left | by eexists].
  - rewrite dict_get_set_ne by done. split; [by right|].
    intros [Heq|H]; [congruence | done].
Qed.

Lemma list_sum_cons (n : nat) (l : list nat) :
  list_sum (n :: l) = (n + list_sum l)%nat.
Proof. reflexivity. Qed.

Lemma dict_set_sum (k : string) (v : nat) (d : list (string * nat)) :
  (list_sum (map snd (dict_set k v d)) <= list_sum (map snd d) + v)%nat.
Proof.
  induction d as [|[k' v'] d IH]; cbn [dict_set map snd].
  - rewrite list_sum_cons. cbn. lia.
  - destruct (String.eqb k' k); cbn [map snd]; rewrite !list_sum_cons; lia.
Qed.

Lemma record_counts_sum (counts stats : list (string * nat)) :
  (list_sum (map snd (record_counts stats counts))
   <= list_sum (map snd stats) + list_sum (map snd counts))%nat.
Proof.
  revert stats. induction counts as [|[k v] counts IH]; intros stats;
    unfold record_counts; cbn [fold_left map snd fst].
  - cbn. lia.
  - fold (record_counts (dict_set k v stats) counts). rewrite list_sum_cons.
    pose proof (IH (dict_set k v stats)). pose proof (dict_set_sum k v stats).
    lia.
Qed.

Lemma record_counts_keys (counts stats : list (string * nat)) (name : string) :
  is_Some (dict_get name (record_counts stats counts))
  <-> is_Some (dict_get name stats) \/ In name (map fst counts).
Proof.
  revert stats. induction counts as [|[k v] counts IH]; intros stats;
    unfold record_counts; cbn [fold_left map fst snd In]; [tauto|].
  fold (record_counts (dict_set k v stats) counts).
  rewrite IH, is_Some_dict_get_set. intuition congruence.
Qed.

Lemma record_counts_unique (counts : list (string * nat)) :
  NoDup (map fst counts) -> record_counts [] counts = counts.
Proof. intros H. exact (fold_dict_set_unique counts [] H). Qed.

(** ** The field filter of the importer *)

(** C2: for every input record, [_filter_entity_fields] with entity type
    [domains] returns a mapping whose items are exactly the items of the
    input whose key is one of the ten allowed names, values unchanged; no
    other key is in it, and a key the input lacks stays absent. *)
Theorem filter_entity_fields_domains (record : dict) :
  exists filtered : dict,
    Importer._filter_entity_fields (PDict record) "domains" = Ok (PDict filtered)
    /\ (forall k v,
          In (k, v) filtered <->
          In (k, v) record
          /\ In k ["name"; "displayName"; "description"; "fullyQualifiedName";
                   "domainType"; "parent"; "owners"; "experts"; "tags";
                   "extension"])
    /\ (forall k,
          dict_get k filtered
          = if bool_decide (k ∈ Importer.domain_fields) then dict_get k record
            else None)
    /\ (forall k, dict_get k record = None -> dict_get k filtered = None).
Proof.
  exists (Importer.allowed_items Importer.domain_fields record).
  assert (Hget : forall k,
    dict_get k (Importer.allowed_items Importer.domain_fields record)
    = if bool_decide (k ∈ Importer.domain_fields) then dict_get k record
      else None).
  { intros k. apply allowed_items_get. }
  split; [reflexivity|]. split; [|split].
  - intros k v. unfold Importer.allowed_items. rewrite filter_In. simpl.
    rewrite bool_decide_eq_true, domain_fields_spec. reflexivity.
  - exact Hget.
  - intros k Hk. rewrite Hget, Hk. by destruct (bool_decide _).
Qed.

Lemma domain_is_data_product_field :
  bool_decide ("domain" ∈ Importer.data_product_fields) = true.
Proof. apply bool_decide_eq_true_2. unfold Importer.data_product_fields. set_solver. Qed.

Lemma filter_data_product_record (record : dict) :
  exists filtered : dict,
    Importer._filter_entity_fields (PDict record) "data_products"
    = Ok (PDict filtered)
    /\ (forall domain,
          dict_get "domain" record = Some (PDict domain) ->
          dict_get "domain" filtered
          = Some (match dict_get "fullyQualifiedName" domain with
                  | Some qualified_name => qualified_name
                  | None => PStr (py_str (dict_get_or "name" domain (PStr "")))
                  end))
    /\ (forall s,
          dict_get "domain" record = Some (PStr s) ->
          dict_get "domain" filtered = Some (PStr s))
    /\ (forall v,
          dict_get "domain" record = Some v ->
          (forall domain, v <> PDict domain) ->
          dict_get "domain" filtered = Some v)
    /\ (forall k,
          k <> "domain" ->
          dict_get k filtered
          = if bool_decide (k ∈ Importer.data_product_fields)
            then dict_get k record else None).
Proof.
  unfold Importer._filter_entity_fields. simpl.
  pose proof (allowed_items_get Importer.data_product_fields "domain" record)
    as Hdom.
  rewrite domain_is_data_product_field in Hdom.
  set (filtered_data := Importer.allowed_items Importer.data_product_fields record)
    in *.
  assert (Hrest : forall k,
    dict_get k filtered_data
    = if bool_decide (k ∈ Importer.data_product_fields)
      then dict_get k record else None)
    by (intros k; apply allowed_items_get).
  destruct (dict_get "domain" filtered_data) as [v|] eqn:Hv.
  - destruct v as [ | | | | | |domain| | ];
      try (eexists; split; [reflexivity|];
           rewrite Hv, <- Hdom;
           repeat split; intros; try congruence; apply Hrest).
    eexists; split; [reflexivity|].
    repeat split.
    + intros domain' H. rewrite <- Hdom in H. injection H as <-.
      rewrite dict_get_set_eq. unfold dict_get_or.
      by destruct (dict_get "fullyQualifiedName" domain).
    + intros s H. congruence.
    + intros v H Hv'. rewrite <- Hdom in H. injection H as <-.
      by destruct (Hv' domain).
    + intros k Hk. rewrite dict_get_set_ne by congruence. apply Hrest.
  - eexists; split; [reflexivity|].
    rewrite Hv, <- Hdom. repeat split; intros; try congruence; apply Hrest.
Qed.

(** C9, as amended: for every record of entity type [data_products] whose
    [domain] field is a mapping, [_filter_entity_fields] replaces that
    field, before the creation request is constructed, by the mapping's
    [fullyQualifiedName] value when the mapping has that key, and otherwise
    by the string form of its [name] (the empty string when it has
    neither); a [domain] field that is a string, or any other value that is
    not a mapping, is left as it is; the other fields go through the
    allow-list; and the [CreateDataProductRequest] is built from the
    filtered record, which is what [create_or_update] then submits. *)
Theorem filter_entity_fields_data_product_domain (record : dict) :
  exists filtered : dict,
    Importer._filter_entity_fields (PDict record) "data_products"
    = Ok (PDict filtered)
    /\ (forall domain,
          dict_get "domain" record = Some (PDict domain) ->
          dict_get "domain" filtered
          = Some (match dict_get "fullyQualifiedName" domain with
                  | Some qualified_name => qualified_name
                  | None => PStr (py_str (dict_get_or "name" domain (PStr "")))
                  end))
    /\ (forall s,
          dict_get "domain" record = Some (PStr s) ->
          dict_get "domain" filtered = Some (PStr s))
    /\ (forall v,
          dict_get "domain" record = Some v ->
          (forall domain, v <> PDict domain) ->
          dict_get "domain" filtered = Some v)
    /\ (forall k,
          k <> "domain" ->
          dict_get k filtered
          = if bool_decide (k ∈ Importer.data_product_fields)
            then dict_get k record else None)
    /\ (forall (K : sdk) (srv : server K),
          Importer.import_attempt K (PDict record) "data_products" srv
          = match new_request K CreateDataProductRequest filtered with
            | Ok req =>
                match call K create_or_update req srv with
                | (srv', Ok _) => (srv', Ok true)
                | (srv', Raise e) => (srv', Raise e)
                end
            | Raise e => (srv, Raise e)
            end).
Proof.
  destruct (filter_data_product_record record)
    as (filtered & Hfilter & Hdict & Hstr & Hother & Hrest).
  exists filtered. repeat (split; [assumption|]).
  intros K srv. unfold Importer.import_attempt. rewrite Hfilter. reflexivity.
Qed.

(** C9, as stated, fails where the mapping has no [fullyQualifiedName]: the
    field becomes the mapping's name, and the request is built with it. *)
Lemma data_product_domain_without_qualified_name :
  let domain := [("name", PStr "d1")] in
  let record := [("name", PStr "p1"); ("domain", PDict domain)] in
  let filtered := [("name", PStr "p1"); ("domain", PStr "d1")] in
  let srv := {| created := []; listed := []; catalog := fun _ => Ok None |} in
  Importer._filter_entity_fields (PDict record) "data_products"
  = Ok (PDict filtered)
  /\ created (Importer.import_attempt mock_sdk (PDict record) "data_products"
                srv).1
     = [(create_or_update, filtered)]
  /\ ~ (exists qualified_name,
          dict_get "fullyQualifiedName" domain = Some qualified_name
          /\ dict_get "domain" filtered = Some qualified_name).
Proof.
  split; [vm_compute; reflexivity|]. split; [vm_compute; reflexivity|].
  intros [q [H _]]. discriminate H.
Qed.

(** C10: for every entity type other than [data_products], [domains] and
    [teams], [_filter_entity_fields] returns its input unchanged; [users]
    and [policies] have creation paths, and on such a path the request is
    built from every field of the record. *)
Theorem filter_entity_fields_other_types (K : sdk) (entity_type : string)
    (entity_data : pyval) (record : dict) (srv : server K) :
  entity_type <> "data_products" ->
  entity_type <> "domains" ->
  entity_type <> "teams" ->
  Importer._filter_entity_fields entity_data entity_type = Ok entity_data
  /\ Importer.creation_path "users"
     = Some (CreateUserRequest, create_or_update_user)
  /\ Importer.creation_path "policies"
     = Some (CreatePolicyRequest, create_or_update_policy)
  /\ (forall cls method,
        Importer.creation_path entity_type = Some (cls, method) ->
        Importer.import_attempt K (PDict record) entity_type srv
        = match new_request K cls record with
          | Ok req =>
              match call K method req srv with
              | (srv', Ok _) => (srv', Ok true)
              | (srv', Raise e) => (srv', Raise e)
              end
          | Raise e => (srv, Raise e)
          end).
Proof.
  intros H1 H2 H3.
  assert (Hid : forall v, Importer._filter_entity_fields v entity_type = Ok v).
  { intros v. unfold Importer._filter_entity_fields.
    destruct (String.eqb_spec entity_type "data_products"); [done|].
    destruct (String.eqb_spec entity_type "domains"); [done|].
    destruct (String.eqb_spec entity_type "teams"); [done|].
    reflexivity. }
  split; [apply Hid|]. split; [reflexivity|]. split; [reflexivity|].
  intros cls method Hpath. unfold Importer.import_attempt.
  rewrite Hid, Hpath. reflexivity.
Qed.

Lemma filter_entity_fields_other_types_witness :
  let record := [("id", PStr "u1"); ("name", PStr "ann"); ("version", PInt 3)] in
  let srv := {| created := []; listed := []; catalog := fun _ => Ok None |} in
  Importer._filter_entity_fields (PDict record) "users" = Ok (PDict record)
  /\ Importer.import_attempt mock_sdk (PDict record) "users" srv
     = ({| created := [(create_or_update_user, record)];
           listed := []; catalog := fun _ => Ok None |}, Ok true).
Proof.
  intros record srv.
  destruct (filter_entity_fields_other_types mock_sdk "users" (PDict record)
              record srv) as (Hid & _ & _ & Hreq); [done | done | done |].
  split; [exact Hid|].
  rewrite (Hreq CreateUserRequest create_or_update_user eq_refl).
  reflexivity.
Defined.

(** ** Environment overrides *)

Lemma config_has_sections_spec (config : pyval) :
  config_has_sections config = true -> exists import, sections config import.
Proof.
  unfold config_has_sections, sections, is_dict.
  destruct config as [ | | | | | |d| | ]; try discriminate.
  destruct (dict_get "openmetadata" d) as [[ | | | | | |om| | ]|] eqn:Hom;
    try discriminate.
  destruct (dict_get "auth" om) as [[ | | | | | |auth| | ]|] eqn:Hauth;
    try discriminate.
  destruct (dict_get "import" d) as [[ | | | | | |import| | ]|] eqn:Himp;
    try discriminate.
  destruct (dict_get "logging" d) as [[ | | | | | |logging| | ]|] eqn:Hlg;
    try discriminate.
  intros _. by exists import, d, om, auth, logging.
Qed.

Lemma setitem_openmetadata (config : pyval) (import : dict) (k : string)
    (x : pyval) :
  sections config import -> k <> "auth" ->
  exists config', setitem_path config ["openmetadata"; k] x = Ok config'
                  /\ sections config' import.
Proof.
  intros (d & om & auth & lg & -> & Hom & Hauth & Himp & Hlg) Hk.
  eexists. simpl. rewrite Hom. split; [reflexivity|].
  exists (dict_set "openmetadata" (PDict (dict_set k x om)) d),
    (dict_set k x om), auth, lg.
  rewrite dict_get_set_eq, !dict_get_set_ne by congruence. done.
Qed.

Lemma setitem_auth (config : pyval) (import : dict) (k : string) (x : pyval) :
  sections config import ->
  exists config', setitem_path config ["openmetadata"; "auth"; k] x = Ok config'
                  /\ sections config' import.
Proof.
  intros (d & om & auth & lg & -> & Hom & Hauth & Himp & Hlg).
  eexists. simpl. rewrite Hom. simpl. rewrite Hauth. split; [reflexivity|].
  eexists _, _, (dict_set k x auth), lg.
  split; [reflexivity|].
  rewrite !dict_get_set_eq, !dict_get_set_ne by congruence. done.
Qed.

Lemma setitem_import (config : pyval) (import : dict) (k : string) (x : pyval) :
  sections config import ->
  exists config', setitem_path config ["import"; k] x = Ok config'
                  /\ sections config' (dict_set k x import).
Proof.
  intros (d & om & auth & lg & -> & Hom & Hauth & Himp & Hlg).
  eexists. simpl. rewrite Himp. split; [reflexivity|].
  eexists _, om, auth, lg.
  split; [reflexivity|].
  rewrite !dict_get_set_eq, !dict_get_set_ne by congruence. done.
Qed.

Lemma setitem_logging (config : pyval) (import : dict) (k : string) (x : pyval) :
  sections config import ->
  exists config', setitem_path config ["logging"; k] x = Ok config'
                  /\ sections config' import.
Proof.
  intros (d & om & auth & lg & -> & Hom & Hauth & Himp & Hlg).
  eexists. simpl. rewrite Hlg. split; [reflexivity|].
  eexists _, om, auth, (dict_set k x lg).
  split; [reflexivity|].
  rewrite !dict_get_set_eq, !dict_get_set_ne by congruence. done.
Qed.

Lemma override_keeps_sections (environ : gmap string string) (name : string)
    (path : list string) (conv : string -> pyval) (config : pyval)
    (import : dict) :
  sections config import ->
  (forall x, exists config' import',
     setitem_path config path x = Ok config' /\ sections config' import') ->
  exists config' import',
    Importer.override environ name path conv config = Ok config'
    /\ sections config' import'.
Proof.
  intros Hs Hset. unfold Importer.override.
  destruct (environ !! name) as [value|]; [|by exists config, import].
  destruct (String.eqb value ""); [by exists config, import|].
  apply Hset.
Qed.

Lemma sections_getitem2 (config : pyval) (import : dict) (k : string) :
  sections config import ->
  getitem2 config "import" k
  = match dict_get k import with
    | Some x => Ok x
    | None => Raise (KeyError k)
    end.
Proof.
  intros (d & om & auth & lg & -> & Hom & Hauth & Himp & Hlg).
  unfold getitem2. simpl. rewrite Himp. reflexivity.
Qed.

Lemma apply_env_overrides_skip_on_error (environ : gmap string string)
    (config : pyval) (value : string) :
  config_has_sections config = true ->
  environ !! "IMPORT_SKIP_ON_ERROR" = Some value ->
  value <> "" ->
  exists config',
    Importer._apply_env_overrides environ config = Ok config'
    /\ getitem2 config' "import" "skip_on_error"
       = Ok (PBool (String.eqb (lower value) "true")).
Proof.
  intros Hcfg Henv Hvalue.
  destruct (config_has_sections_spec _ Hcfg) as [imp0 H0].
  unfold Importer._apply_env_overrides.
  destruct (override_keeps_sections environ "OPENMETADATA_SERVER_URL"
              ["openmetadata"; "server_url"] PStr config imp0 H0)
    as (c1 & imp1 & -> & H1).
  { intros x. destruct (setitem_openmetadata config imp0 "server_url" x H0)
      as (c & Hc & Hs); [done|]. by exists c, imp0. }
  cbn [bind].
  destruct (override_keeps_sections environ "OPENMETADATA_JWT_TOKEN"
              ["openmetadata"; "auth"; "jwt_token"] PStr c1 imp1 H1)
    as (c2 & imp2 & -> & H2).
  { intros x. destruct (setitem_auth c1 imp1 "jwt_token" x H1) as (c & Hc & Hs).
    by exists c, imp1. }
  cbn [bind].
  destruct (override_keeps_sections environ "IMPORT_INPUT_DIR"
              ["import"; "input_dir"] PStr c2 imp2 H2)
    as (c3 & imp3 & -> & H3).
  { intros x. destruct (setitem_import c2 imp2 "input_dir" x H2) as (c & Hc & Hs).
    by eexists c, _. }
  cbn [bind].
  destruct (override_keeps_sections environ "IMPORT_UPDATE_EXISTING"
              ["import"; "update_existing"] Importer.is_true c3 imp3 H3)
    as (c4 & imp4 & -> & H4).
  { intros x. destruct (setitem_import c3 imp3 "update_existing" x H3)
      as (c & Hc & Hs). by eexists c, _. }
  cbn [bind]. unfold Importer.override at 1. rewrite Henv.
  destruct (String.eqb_spec value "") as [|_]; [done|].
  destruct (setitem_import c4 imp4 "skip_on_error" (Importer.is_true value) H4)
    as (c5 & -> & H5).
  cbn [bind].
  destruct (override_keeps_sections environ "LOG_LEVEL"
              ["logging"; "level"] PStr c5 _ H5)
    as (c6 & imp6 & Hc6 & H6).
  { intros x. destruct (setitem_logging c5 _ "level" x H5) as (c & Hc & Hs).
    by eexists c, _. }
  exists c6. split; [exact Hc6|].
  (* the last override leaves the import section alone *)
  unfold Importer.override in Hc6.
  destruct (environ !! "LOG_LEVEL") as [level|].
  - destruct (String.eqb level "").
    + injection Hc6 as <-.
      rewrite (sections_getitem2 _ _ "skip_on_error" H5), dict_get_set_eq.
      reflexivity.
    + destruct (setitem_logging c5 _ "level" (PStr level) H5) as (c & Hc & Hs).
      rewrite Hc in Hc6. injection Hc6 as <-.
      rewrite (sections_getitem2 _ _ "skip_on_error" Hs), dict_get_set_eq.
      reflexivity.
  - injection Hc6 as <-.
    rewrite (sections_getitem2 _ _ "skip_on_error" H5), dict_get_set_eq.
    reflexivity.
Qed.

Lemma setitem_path_two (config config' : pyval) (k1 k2 : string) (x : pyval) :
  setitem_path config [k1; k2] x = Ok config' ->
  exists d inner,
    config = PDict d
    /\ dict_get k1 d = Some (PDict inner)
    /\ config' = PDict (dict_set k1 (PDict (dict_set k2 x inner)) d).
Proof.
  destruct config as [ | | | | | |d| | ]; try discriminate.
  cbn [setitem_path].
  destruct (dict_get k1 d) as [[ | | | | | |inner| | ]|] eqn:Hk1;
    try discriminate.
  cbn [bind]. intros [= <-]. by exists d, inner.
Qed.

Lemma override_cases (environ : gmap string string) (name : string)
    (path : list string) (conv : string -> pyval) (config config' : pyval) :
  Importer.override environ name path conv config = Ok config' ->
  config' = config
  \/ exists value, setitem_path config path (conv value) = Ok config'.
Proof.
  unfold Importer.override. destruct (environ !! name) as [value|].
  - destruct (String.eqb value ""); [intros [= <-]; by left|].
    intros H. right. by exists value.
  - intros [= <-]. by left.
Qed.

Lemma apply_env_overrides_returns (environ : gmap string string)
    (config config' : pyval) (value : string) :
  environ !! "IMPORT_SKIP_ON_ERROR" = Some value ->
  value <> "" ->
  Importer._apply_env_overrides environ config = Ok config' ->
  getitem2 config' "import" "skip_on_error"
  = Ok (PBool (String.eqb (lower value) "true")).
Proof.
  intros Henv Hvalue. unfold Importer._apply_env_overrides.
  destruct (Importer.override environ "OPENMETADATA_SERVER_URL" _ _ config)
    as [c1|]; [|discriminate]. cbn [bind].
  destruct (Importer.override environ "OPENMETADATA_JWT_TOKEN" _ _ c1)
    as [c2|]; [|discriminate]. cbn [bind].
  destruct (Importer.override environ "IMPORT_INPUT_DIR" _ _ c2)
    as [c3|]; [|discriminate]. cbn [bind].
  destruct (Importer.override environ "IMPORT_UPDATE_EXISTING" _ _ c3)
    as [c4|]; [|discriminate]. cbn [bind].
  unfold Importer.override at 1. rewrite Henv.
  destruct (String.eqb_spec value "") as [|_]; [done|].
  destruct (setitem_path c4 ["import"; "skip_on_error"] (Importer.is_true value))
    as [c5|] eqn:H5; [|discriminate]. cbn [bind].
  apply setitem_path_two in H5 as (d & inner & -> & Hinner & ->).
  assert (Hflag : forall d',
    dict_get "import" d'
    = Some (PDict (dict_set "skip_on_error" (Importer.is_true value) inner)) ->
    getitem2 (PDict d') "import" "skip_on_error"
    = Ok (PBool (String.eqb (lower value) "true"))).
  { intros d' Hd'. unfold getitem2. cbn [getitem]. rewrite Hd'. cbn [bind getitem].
    by rewrite dict_get_set_eq. }
  intros H6. apply override_cases in H6 as [-> | [level H6]].
  - apply Hflag, dict_get_set_eq.
  - apply setitem_path_two in H6 as (d6 & logging & [= <-] & _ & ->).
    apply Hflag. rewrite dict_get_set_ne by done. apply dict_get_set_eq.
Qed.

(** C8: with [IMPORT_SKIP_ON_ERROR] set to [false], the configuration the
    overrides of the importer return has [import.skip_on_error] at the
    boolean false, whatever it was before, and with [true] at the boolean
    true; the overrides do return a configuration when the loaded one has
    the sections they write to. *)
Theorem env_override_skip_on_error (environ : gmap string string)
    (config : pyval) (value : string) :
  environ !! "IMPORT_SKIP_ON_ERROR" = Some value ->
  value = "false" \/ value = "true" ->
  (forall config',
     Importer._apply_env_overrides environ config = Ok config' ->
     getitem2 config' "import" "skip_on_error"
     = Ok (PBool (String.eqb value "true")))
  /\ (config_has_sections config = true ->
      exists config',
        Importer._apply_env_overrides environ config = Ok config').
Proof.
  intros Henv Hvalue. split.
  - intros config' Happly.
    rewrite (apply_env_overrides_returns environ config config' value Henv);
      [by destruct Hvalue as [-> | ->] | by destruct Hvalue as [-> | ->]
      | exact Happly].
  - intros Hcfg.
    destruct (apply_env_overrides_skip_on_error environ config value Hcfg Henv)
      as (config' & Happly & _); [by destruct Hvalue as [-> | ->]|].
    by exists config'.
Qed.

Lemma env_override_skip_on_error_witness :
  exists config',
    Importer._apply_env_overrides test_environ test_import_config = Ok config'
    /\ getitem2 config' "import" "skip_on_error" = Ok (PBool false).
Proof.
  destruct (env_override_skip_on_error test_environ test_import_config "false"
              eq_refl (or_introl eq_refl)) as [Hflag Hruns].
  destruct (Hruns eq_refl) as [config' Happly].
  exists config'. split; [exact Happly | exact (Hflag config' Happly)].
Defined.

(** ** Missing files *)



(** ** Failures while importing a record *)

(** C6: when importing a record fails, [_import_entity] appends the error
    message to the error list; then the truth value of [skip_on_error]
    ([True] when the key is absent) decides, and nothing else does: when
    true the call returns [False] and the loop goes on with the next
    record, when false the exception is raised again and ends the loop of
    the entity type and the loop of [import_all]. *)
Theorem import_entity_failure (K : sdk) (loads : string -> decoded)
    (entity_data : pyval) (entity_type : string) (self : Importer.t)
    (srv srv' : server K) (e : exn) (import : dict) :
  Importer.import_attempt K entity_data entity_type srv = (srv', Raise e) ->
  getitem (Importer.config self) "import" = Ok (PDict import) ->
  let self' := {| Importer.config := Importer.config self;
                  Importer.import_stats := Importer.import_stats self;
                  Importer.errors :=
                    Importer.errors self
                    ++ [Importer.error_message entity_type e] |} in
  let skip := truthy (dict_get_or "skip_on_error" import (PBool true)) in
  Importer._import_entity K entity_data entity_type self srv
  = (self', srv', if skip then Ok false else Raise e)
  /\ (dict_get "skip_on_error" import = Some (PBool true) -> skip = true)
  /\ (dict_get "skip_on_error" import = Some (PBool false) -> skip = false)
  /\ (forall rest count,
        Importer.import_loop K (entity_data :: rest) entity_type count self srv
        = if skip
          then Importer.import_loop K rest entity_type count self' srv'
          else (self', srv', Raise e))
  /\ (forall entities input_dir fs rest total,
        Importer._load_ndjson loads fs
          (path_join input_dir (entity_type +:+ ".ndjson"))
        = entity_data :: entities ->
        skip = false ->
        Importer._import_entity_type K loads entity_type input_dir fs self srv
        = (self', srv', Raise e)
        /\ Importer.import_types K loads (entity_type :: rest) input_dir fs
             total self srv
           = (self', srv', Raise e)).
Proof.
  intros Hfail Hcfg self' skip.
  assert (H : Importer._import_entity K entity_data entity_type self srv
              = (self', srv', if skip then Ok false else Raise e)).
  { unfold Importer._import_entity. rewrite Hfail. cbn [Importer.config].
    rewrite Hcfg. cbn [bind py_get]. fold skip.
    unfold dict_get_or in skip.
    destruct (dict_get "skip_on_error" import) as [flag|]; subst skip;
      cbn [truthy negb]; [|reflexivity].
    by destruct (truthy flag). }
  split; [exact H|]. split; [|split; [|split]].
  - intros Hflag. subst skip. unfold dict_get_or. by rewrite Hflag.
  - intros Hflag. subst skip. unfold dict_get_or. by rewrite Hflag.
  - intros rest count. cbn [Importer.import_loop]. rewrite H.
    by destruct skip.
  - intros entities input_dir fs rest total Hload Hskip.
    assert (Htype : Importer._import_entity_type K loads entity_type input_dir
                      fs self srv = (self', srv', Raise e)).
    { unfold Importer._import_entity_type.
      destruct (fs !! path_join input_dir (entity_type +:+ ".ndjson"))
        eqn:Hfs.
      - rewrite Hload. cbn [Importer.import_loop]. rewrite H, Hskip.
        reflexivity.
      - unfold Importer._load_ndjson in Hload. by rewrite Hfs in Hload. }
    split; [exact Htype|]. cbn [Importer.import_types]. by rewrite Htype.
Qed.

Lemma import_entity_failure_witness :
  let record := PDict [("displayName", PStr "No name")] in
  let self := {| Importer.config := test_import_config;
                 Importer.import_stats := [];
                 Importer.errors := [] |} in
  let srv := {| created := []; listed := []; catalog := fun _ => Ok None |} in
  Importer._import_entity mock_sdk record "teams" self srv
  = ({| Importer.config := test_import_config;
        Importer.import_stats := [];
        Importer.errors :=
          ["Error importing teams entity: name: Field required"] |},
     srv, Ok false).
Proof.
  intros record self srv.
  exact (proj1 (import_entity_failure mock_sdk json_decode record "teams" self
                  srv srv (Exn "ValidationError" "name: Field required")
                  _ eq_refl eq_refl)).
Defined.

(** ** The loop of the exporter *)

Lemma export_loop_app (K : sdk) (dump : dumper)
    (before after : list (string * entity_class))
    (output_dir : string) (self : Exporter.t) (total : nat)
    (fs : gmap string fnode) (srv : server K) :
  Exporter.export_loop K dump (before ++ after) output_dir self total fs srv
  = let '(self1, total1, fs1, srv1) :=
      Exporter.export_loop K dump before output_dir self total fs srv in
    Exporter.export_loop K dump after output_dir self1 total1 fs1 srv1.
Proof.
  revert self total fs srv.
  induction before as [|[name cls] before IH]; intros self total fs srv; simpl.
  - reflexivity.
  - destruct (Exporter._export_entity_type K dump name cls output_dir fs srv)
      as [[fs' srv'] count].
    apply IH.
Qed.

Lemma export_loop_stats (K : sdk) (dump : dumper)
    (todo : list (string * entity_class))
    (output_dir : string) (self : Exporter.t) (total : nat)
    (fs : gmap string fnode) (srv : server K) :
  let self' := (Exporter.export_loop K dump todo output_dir self total fs srv).1.1.1 in
  Exporter.config self' = Exporter.config self
  /\ (forall name,
        is_Some (dict_get name (Exporter.export_stats self')) <->
        is_Some (dict_get name (Exporter.export_stats self))
        \/ In name (map fst todo))
  /\ (forall name,
        ~ In name (map fst todo) ->
        dict_get name (Exporter.export_stats self')
        = dict_get name (Exporter.export_stats self)).
Proof.
  revert self total fs srv.
  induction todo as [|[entity_name cls] todo IH]; intros self total fs srv; simpl.
  - split; [reflexivity|]. split; [|done]. intros name. tauto.
  - destruct (Exporter._export_entity_type K dump entity_name cls output_dir fs srv)
      as [[fs' srv'] count].
    match goal with
    | |- context [Exporter.export_loop K dump todo output_dir ?s ?t ?f ?v] =>
        destruct (IH s t f v) as (Hc & Hs & Ho)
    end.
    cbn [Exporter.config Exporter.export_stats] in *.
    split; [exact Hc|]. split.
    + intros name. rewrite Hs, is_Some_dict_get_set. intuition.
    + intros name Hnot. rewrite Ho by tauto.
      apply dict_get_set_ne. intros ->. tauto.
Qed.

Lemma export_all_runs (K : sdk) (dump : dumper)
    (selected : option (list string)) (self : Exporter.t)
    (fs fs0 : gmap string fnode) (srv : server K) (server_url : pyval)
    (dir : string) (todo : list (string * entity_class)) :
  getitem2 (Exporter.config self) "openmetadata" "server_url" = Ok server_url ->
  getitem2 (Exporter.config self) "export" "output_dir" = Ok (PStr dir) ->
  mkdir_parents dir fs = Ok fs0 ->
  Exporter.entities_to_export (Exporter.config self) selected = Ok todo ->
  Exporter.export_all K dump selected self fs srv
  = Ok (Exporter.export_loop K dump todo dir self 0%nat fs0 srv).
Proof.
  intros Hurl Hdir Hfs Htodo. unfold Exporter.export_all, getitem2 in *.
  destruct (getitem (Exporter.config self) "openmetadata") as [om|];
    [|discriminate].
  cbn [bind] in *. rewrite Hurl. cbn [bind].
  unfold Exporter._ensure_output_dir.
  destruct (getitem (Exporter.config self) "export") as [export|];
    [|discriminate].
  cbn [bind] in *. rewrite Hdir. cbn [bind]. rewrite Hfs. cbn [bind].
  by rewrite Htodo.
Qed.

(** ** The working set of the exporter *)

Lemma selected_pairs (names : list string) (acc : list (string * entity_class)) :
  (forall n c, dict_get n acc = Some c ->
               dict_get n Exporter.entity_mappings = Some c) ->
  forall name cls,
    dict_get name
      (fold_left (fun d kv => dict_set (fst kv) (snd kv) d)
         (omap (fun name => pair name <$> dict_get name Exporter.entity_mappings)
            names) acc)
    = Some cls <->
    dict_get name acc = Some cls
    \/ (In name names /\ dict_get name Exporter.entity_mappings = Some cls).
Proof.
  revert acc. induction names as [|n ns IH]; intros acc Hacc name cls;
    cbn [omap list_omap fold_left In].
  - tauto.
  - destruct (dict_get n Exporter.entity_mappings) as [c|] eqn:Hn;
      cbn [fmap option_fmap option_map fold_left fst snd].
    + rewrite IH.
      * destruct (String.eqb_spec n name) as [->|Hne].
        -- rewrite dict_get_set_eq. split.
           ++ intros [[= ->]|[Hin Hc]]; right; split; auto.
           ++ intros [Hc|[_ Hc]]; left; [apply Hacc in Hc|]; congruence.
        -- rewrite dict_get_set_ne by done. intuition congruence.
      * intros n' c'. destruct (String.eqb_spec n n') as [->|Hne].
        -- rewrite dict_get_set_eq. congruence.
        -- rewrite dict_get_set_ne by done. apply Hacc.
    + rewrite (IH acc Hacc). split; [tauto|].
      intros [Hc|[[->|Hin] Hc]]; [tauto | congruence | tauto].
Qed.

Lemma enabled_entities_known (flags : dict) :
  let todo :=
    List.filter
      (fun entry => truthy (dict_get_or (fst entry) flags (PBool false)))
      Exporter.entity_mappings in
  NoDup (map fst todo)
  /\ forall name cls,
       dict_get name todo = Some cls ->
       dict_get name Exporter.entity_mappings = Some cls.
Proof.
  intros todo. split.
  - apply NoDup_keys_filter. apply keys_unique_NoDup. reflexivity.
  - intros name cls. unfold todo.
    rewrite (dict_get_filter
               (fun name => truthy (dict_get_or name flags (PBool false)))).
    destruct (truthy _); [auto | discriminate].
Qed.

Lemma selected_entities_known (names : list string) :
  let todo :=
    dict_of_pairs
      (omap (fun name => pair name <$> dict_get name Exporter.entity_mappings)
         names) in
  NoDup (map fst todo)
  /\ forall name cls,
       dict_get name todo = Some cls ->
       dict_get name Exporter.entity_mappings = Some cls.
Proof.
  intros todo. split.
  - unfold todo, dict_of_pairs. apply record_counts_NoDup. constructor.
  - intros name cls. unfold todo, dict_of_pairs.
    rewrite selected_pairs; [|done]. cbn [dict_get]. intuition discriminate.
Qed.

Lemma entities_to_export_known (config : pyval)
    (selected : option (list string)) (todo : list (string * entity_class)) :
  Exporter.entities_to_export config selected = Ok todo ->
  NoDup (map fst todo)
  /\ forall name cls,
       dict_get name todo = Some cls ->
       dict_get name Exporter.entity_mappings = Some cls.
Proof.
  assert (Hconfig :
            (try! export := getitem config "export" in
             try! export_config := getitem export "entities" in
             match export_config with
             | PDict flags =>
                 Ok (List.filter
                       (fun entry =>
                          truthy (dict_get_or (fst entry) flags (PBool false)))
                       Exporter.entity_mappings)
             | _ => Raise (AttributeError "object has no attribute 'get'")
             end) = Ok todo ->
            NoDup (map fst todo)
            /\ forall name cls,
                 dict_get name todo = Some cls ->
                 dict_get name Exporter.entity_mappings = Some cls).
  { destruct (getitem config "export") as [export|]; cbn [bind]; [|discriminate].
    destruct (getitem export "entities") as [flags|]; cbn [bind];
      [|discriminate].
    destruct flags; try discriminate. intros [= <-].
    exact (enabled_entities_known d). }
  unfold Exporter.entities_to_export.
  destruct selected as [[|first others]|]; [exact Hconfig | | exact Hconfig].
  intros [= <-]. exact (selected_entities_known (first :: others)).
Qed.

(** C3: with no selection (none, or an empty one), the entity types
    [export_all] exports are exactly the known types whose flag in
    [export.entities] is true, a missing flag counting as false: the loop
    runs [_export_entity_type] on these and on no other, and an exporter
    that starts without statistics ends with an entry for each of them and
    for no other type; the output directory is made first, with the
    directories above it.  For the flags [domains: true, teams: true,
    data_products: false] these are [teams] and [domains]. *)
Theorem export_all_enabled_entities (K : sdk) (dump : dumper) (self : Exporter.t)
    (fs fs0 : gmap string fnode) (srv : server K) (server_url : pyval)
    (dir : string) (flags : dict) :
  getitem2 (Exporter.config self) "openmetadata" "server_url" = Ok server_url ->
  getitem2 (Exporter.config self) "export" "output_dir" = Ok (PStr dir) ->
  mkdir_parents dir fs = Ok fs0 ->
  getitem2 (Exporter.config self) "export" "entities" = Ok (PDict flags) ->
  Exporter.export_stats self = [] ->
  let enabled name := truthy (dict_get_or name flags (PBool false)) in
  let todo := List.filter (fun entry => enabled (fst entry))
                Exporter.entity_mappings in
  let run := Exporter.export_loop K dump todo dir self 0%nat fs0 srv in
  Exporter.entities_to_export (Exporter.config self) None = Ok todo
  /\ Exporter.entities_to_export (Exporter.config self) (Some []) = Ok todo
  /\ (forall name,
        In name (map fst todo) <->
        In name (map fst Exporter.entity_mappings) /\ enabled name = true)
  /\ (forall name b,
        dict_get name flags = Some (PBool b) -> enabled name = b)
  /\ Exporter.export_all K dump None self fs srv = Ok run
  /\ (forall name,
        is_Some (dict_get name (Exporter.export_stats run.1.1.1)) <->
        In name (map fst todo))
  /\ (flags = [("domains", PBool true); ("teams", PBool true);
               ("data_products", PBool false)] ->
      todo = [("teams", Team); ("domains", Domain)]
      /\ run
         = let '(fs1, srv1, teams) :=
             Exporter._export_entity_type K dump "teams" Team dir
               fs0 srv in
           let '(fs2, srv2, domains) :=
             Exporter._export_entity_type K dump "domains" Domain dir fs1 srv1 in
           ({| Exporter.config := Exporter.config self;
               Exporter.export_stats := [("teams", teams); ("domains", domains)] |},
            (0 + teams + domains)%nat, fs2, srv2)).
Proof.
  intros Hurl Hdir Hfs Hflags Hstats enabled todo run.
  assert (Htodo : forall selected,
            selected = None \/ selected = Some [] ->
            Exporter.entities_to_export (Exporter.config self) selected = Ok todo).
  { intros selected Hsel. unfold Exporter.entities_to_export, getitem2 in *.
    destruct (getitem (Exporter.config self) "export") as [export|];
      [|discriminate].
    cbn [bind] in *.
    destruct Hsel as [-> | ->]; rewrite Hflags; reflexivity. }
  split; [apply Htodo; by left|]. split; [apply Htodo; by right|].
  split; [|split; [|split; [|split]]].
  - intros name. subst todo. rewrite in_map_iff. split.
    + intros ([n cls] & <- & Hin). apply filter_In in Hin as [Hin Hen].
      split; [|exact Hen]. apply in_map_iff. by exists (n, cls).
    + intros [Hin Hen]. apply in_map_iff in Hin as ([n cls] & <- & Hin).
      exists (n, cls). split; [reflexivity|]. apply filter_In. by split.
  - intros name b Hb. subst enabled. cbn beta. unfold dict_get_or.
    by rewrite Hb.
  - eapply export_all_runs; [exact Hurl | exact Hdir | exact Hfs |].
    apply Htodo. by left.
  - intros name.
    destruct (export_loop_stats K dump todo dir self 0%nat fs0 srv)
      as (_ & Hs & _).
    fold run in Hs. rewrite Hs, Hstats. cbn [dict_get].
    split; [intros [[x Hx]|H]; [discriminate | exact H] | by right].
  - intros ->.
    assert (Ht : todo = [("teams", Team); ("domains", Domain)]) by reflexivity.
    split; [exact Ht|]. subst run. rewrite Ht. cbn [Exporter.export_loop].
    destruct (Exporter._export_entity_type K dump "teams" Team dir
                fs0 srv) as [[fs1 srv1] teams].
    cbn [Exporter.config Exporter.export_stats].
    destruct (Exporter._export_entity_type K dump "domains" Domain dir fs1 srv1)
      as [[fs2 srv2] domains].
    by rewrite Hstats.
Qed.

Lemma export_all_enabled_entities_witness :
  let srv := {| created := []; listed := [];
                catalog := fun _ =>
                  Ok (Some [pydantic_entity [("id", PStr "1")]]) |} in
  let self := {| Exporter.config := test_export_config;
                 Exporter.export_stats := [] |} in
  exists self' total fs' srv',
    Exporter.export_all mock_sdk json_dump None self ∅ srv = Ok (self', total, fs', srv')
    /\ Exporter.export_stats self' = [("teams", 1%nat); ("domains", 1%nat)]
    /\ listed srv' = [Team; Domain].
Proof.
  intros srv self.
  destruct (export_all_enabled_entities mock_sdk json_dump self ∅
              {[ "." := Dir; "./test_exports" := Dir ]} srv
              (PStr "http://test.example.com") "./test_exports"
              [("domains", PBool true); ("teams", PBool true);
               ("data_products", PBool false)]
              eq_refl eq_refl)
    as (_ & _ & _ & _ & Hall & _ & Hrun);
    [vm_compute; reflexivity | reflexivity | reflexivity | ].
  - destruct (Hrun eq_refl) as [_ Hloop].
    rewrite Hall. clear Hall Hrun. cbv zeta in Hloop. rewrite Hloop.
    eexists _, _, _, _. split; [reflexivity|]. split; reflexivity.
Defined.

(** ** A failure while exporting a type *)

Lemma export_fails_count (K : sdk) (dump : dumper) (entity_name : string)
    (cls : entity_class) (output_dir : string) (fs : gmap string fnode)
    (srv : server K) :
  export_fails K dump entity_name cls output_dir fs srv ->
  (Exporter._export_entity_type K dump entity_name cls output_dir fs srv).2
  = 0%nat.
Proof.
  unfold export_fails, Exporter._export_entity_type, Exporter.export_attempt.
  destruct (list_entities K cls 10000 srv) as [srv' [response|e]];
    [|reflexivity].
  destruct (mapM Exporter.entity_to_dict _) as [entity_dicts|e]; [|reflexivity].
  unfold Exporter._write_ndjson.
  destruct (can_open_w fs (path_join output_dir (entity_name +:+ ".ndjson")));
    [|reflexivity].
  destruct (Exporter.write_entities dump entity_dicts) as [text [|]];
    cbn [snd]; [|reflexivity].
  intros [H|H]; discriminate H.
Qed.

(** C7: when exporting a type of the working set fails, whether the
    listing raises, the conversion of an entity raises, the file cannot be
    opened or a [json.dump] raises, [_export_entity_type] returns the count
    0 and [export_all] goes on: what it returns is what the loop over the
    types after the failed one gives, started with the entry 0 recorded
    for the failed type; in the statistics it ends with, the failed type
    has the count 0 and every type after it has its entry. *)
Theorem export_failure_is_contained (K : sdk) (dump : dumper)
    (selected : option (list string)) (self self1 : Exporter.t)
    (fs fs0 fs1 : gmap string fnode) (srv srv1 : server K)
    (server_url : pyval) (dir : string)
    (before after : list (string * entity_class)) (entity_name : string)
    (cls : entity_class) (total1 : nat) :
  getitem2 (Exporter.config self) "openmetadata" "server_url" = Ok server_url ->
  getitem2 (Exporter.config self) "export" "output_dir" = Ok (PStr dir) ->
  mkdir_parents dir fs = Ok fs0 ->
  Exporter.entities_to_export (Exporter.config self) selected
  = Ok (before ++ (entity_name, cls) :: after) ->
  Exporter.export_loop K dump before dir self 0%nat fs0 srv
  = (self1, total1, fs1, srv1) ->
  export_fails K dump entity_name cls dir fs1 srv1 ->
  let '(fs2, srv2, count) :=
    Exporter._export_entity_type K dump entity_name cls dir fs1 srv1 in
  count = 0%nat
  /\ Exporter.export_all K dump selected self fs srv
     = Ok (Exporter.export_loop K dump after dir
             {| Exporter.config := Exporter.config self1;
                Exporter.export_stats :=
                  dict_set entity_name 0%nat (Exporter.export_stats self1) |}
             total1 fs2 srv2)
  /\ forall self' total' fs' srv',
       Exporter.export_all K dump selected self fs srv
       = Ok (self', total', fs', srv') ->
       dict_get entity_name (Exporter.export_stats self') = Some 0%nat
       /\ forall name,
            In name (map fst after) ->
            is_Some (dict_get name (Exporter.export_stats self')).
Proof.
  intros Hurl Hdir Hmk Htodo Hbefore Hfail.
  pose proof (export_fails_count K dump entity_name cls dir fs1 srv1 Hfail)
    as Hcount.
  destruct (Exporter._export_entity_type K dump entity_name cls dir fs1 srv1)
    as [[fs2 srv2] count] eqn:Htype.
  cbn [snd] in Hcount. subst count. split; [reflexivity|].
  assert (Hall : Exporter.export_all K dump selected self fs srv
                 = Ok (Exporter.export_loop K dump after dir
                         {| Exporter.config := Exporter.config self1;
                            Exporter.export_stats :=
                              dict_set entity_name 0%nat
                                (Exporter.export_stats self1) |}
                         total1 fs2 srv2)).
  { rewrite (export_all_runs K dump selected self fs fs0 srv server_url dir
               _ Hurl Hdir Hmk Htodo).
    rewrite export_loop_app, Hbefore. cbn [Exporter.export_loop].
    rewrite Htype. by rewrite Nat.add_0_r. }
  split; [exact Hall|].
  intros self' total' fs' srv' Hdone. rewrite Hall in Hdone.
  apply entities_to_export_known in Htodo as [Hnd _].
  rewrite map_app in Hnd. cbn [map fst] in Hnd.
  apply NoDup_app in Hnd as (_ & _ & Hnd). apply NoDup_cons in Hnd as [Hfresh _].
  match type of Hdone with
  | Ok (Exporter.export_loop K dump after dir ?s ?t ?f ?v) = _ =>
      destruct (export_loop_stats K dump after dir s t f v) as (_ & Hs & Ho)
  end.
  injection Hdone as Hdone. rewrite Hdone in Hs, Ho.
  cbn [fst Exporter.export_stats] in Hs, Ho. split.
  - rewrite Ho; [apply dict_get_set_eq|].
    intros Hin. apply Hfresh. by apply list_elem_of_In.
  - intros name Hin. apply Hs. by right.
Qed.

Lemma export_failure_is_contained_witness :
  let catalog := fun cls =>
    match cls with
    | Team => Raise (Exn "ConnectionError" "connection refused")
    | _ => Ok (Some [pydantic_entity [("id", PStr "d1"); ("name", PStr "Domain 1")]])
    end in
  let srv := {| created := []; listed := []; catalog := catalog |} in
  let self := {| Exporter.config := test_export_config;
                 Exporter.export_stats := [] |} in
  exists self' total fs' srv',
    Exporter.export_all mock_sdk json_dump None self ∅ srv
    = Ok (self', total, fs', srv')
    /\ Exporter.export_stats self' = [("teams", 0%nat); ("domains", 1%nat)]
    /\ total = 1%nat.
Proof.
  intros catalog srv self.
  pose proof (export_failure_is_contained mock_sdk json_dump None self self ∅
                {[ "." := Dir; "./test_exports" := Dir ]}
                {[ "." := Dir; "./test_exports" := Dir ]} srv srv
                (PStr "http://test.example.com") "./test_exports"
                [] [("domains", Domain)] "teams" Team 0%nat
                eq_refl eq_refl) as H.
  cbv zeta in H. cbn [Exporter._export_entity_type Exporter.export_attempt]
    in H.
  destruct H as (_ & Hall & _);
    [vm_compute; reflexivity | reflexivity | reflexivity | exact I |].
  rewrite Hall. eexists _, _, _, _. split; [reflexivity|].
  split; vm_compute; reflexivity.
Defined.

(** ** An explicit selection *)

Lemma dict_set_same {V : Type} (k : string) (v : V) (d : list (string * V)) :
  dict_get k d = Some v -> dict_set k v d = d.
Proof.
  induction d as [|[k' v'] d IH]; cbn [dict_get dict_set]; [discriminate|].
  destruct (String.eqb_spec k' k) as [->|Hne].
  - by intros [= ->].
  - intros H. by rewrite IH.
Qed.

Lemma filter_absorb {A : Type} (p q : A -> bool) (l : list A) :
  (forall x, p x = true -> q x = true) ->
  List.filter p (List.filter q l) = List.filter p l.
Proof.
  intros Hpq. induction l as [|x l IH]; cbn [List.filter]; [reflexivity|].
  destruct (q x) eqn:Eq; cbn [List.filter]; rewrite IH; [reflexivity|].
  destruct (p x) eqn:Ep; [|reflexivity]. apply Hpq in Ep. congruence.
Qed.

Lemma filter_both {A : Type} (p q : A -> bool) (l : list A) :
  List.filter p (List.filter q l) = List.filter (fun x => q x && p x) l.
Proof.
  induction l as [|x l IH]; cbn [List.filter]; [reflexivity|].
  destruct (q x); cbn [List.filter andb]; rewrite IH; reflexivity.
Qed.

Lemma filter_swap {A : Type} (p q : A -> bool) (l : list A) :
  List.filter p (List.filter q l) = List.filter q (List.filter p l).
Proof.
  rewrite !filter_both. apply filter_ext. intros x. apply andb_comm.
Qed.

Lemma omap_filter_none {A B : Type} (f : A -> option B) (q : A -> bool)
    (l : list A) :
  (forall x, q x = false -> f x = None) ->
  omap f (List.filter q l) = omap f l.
Proof.
  intros Hq. induction l as [|x l IH]; cbn [List.filter omap list_omap];
    [reflexivity|].
  destruct (q x) eqn:Eq; cbn [omap list_omap]; rewrite IH; [reflexivity|].
  by rewrite (Hq x Eq).
Qed.

Lemma fresh_key {V : Type} (k : string) (d : list (string * V)) :
  existsb (String.eqb k) (map fst d) = false <-> dict_get k d = None.
Proof.
  induction d as [|[k' v] d IH]; cbn [map fst existsb dict_get]; [done|].
  rewrite (String.eqb_sym k k'). destruct (String.eqb k' k); cbn [orb];
    [split; discriminate | exact IH].
Qed.

Lemma selected_in_order {V : Type} (table : list (string * V))
    (names : list string) :
  forall acc : list (string * V),
    (forall k v, dict_get k acc = Some v -> dict_get k table = Some v) ->
    fold_left (fun d kv => dict_set (fst kv) (snd kv) d)
      (omap (fun name => pair name <$> dict_get name table) names) acc
    = acc
      ++ omap (fun name => pair name <$> dict_get name table)
           (List.filter
              (fun name => negb (existsb (String.eqb name) (map fst acc)))
              (first_occurrences names)).
Proof.
  induction names as [|n ns IH]; intros acc Hacc;
    cbn [first_occurrences omap list_omap List.filter fold_left].
  - by rewrite app_nil_r.
  - destruct (dict_get n table) as [c|] eqn:En;
      cbn [fmap option_fmap option_map fold_left fst snd].
    + destruct (existsb (String.eqb n) (map fst acc)) eqn:Ex; cbn [negb].
      * assert (Hn : dict_get n acc = Some c).
        { destruct (dict_get n acc) as [v|] eqn:Eg.
          - apply Hacc in Eg. congruence.
          - apply fresh_key in Eg. congruence. }
        rewrite (dict_set_same _ _ _ Hn), (IH acc Hacc). f_equal. f_equal.
        symmetry. apply filter_absorb. intros x Hx.
        apply negb_true_iff. apply String.eqb_neq. intros ->.
        apply negb_true_iff in Hx. congruence.
      * apply fresh_key in Ex.
        assert (Hfresh : n ∉ map fst acc).
        { intros Hin. apply list_elem_of_In, in_map_iff in Hin
            as ([k v] & Hk & Hin). cbn [fst] in Hk. subst k.
          clear IH Hacc. induction acc as [|[k' v'] acc IHacc];
            [destruct Hin|]. cbn [dict_get] in Ex.
          destruct (String.eqb_spec k' n) as [->|Hne]; [discriminate|].
          destruct Hin as [[= -> ->]|Hin]; [congruence|]. by apply IHacc. }
        rewrite (dict_set_fresh _ _ _ Hfresh), IH.
        -- cbn [omap list_omap]. rewrite En.
           cbn [fmap option_fmap option_map]. rewrite <- app_assoc.
           cbn [app]. f_equal. f_equal. f_equal. rewrite filter_both.
           apply filter_ext. intros x. rewrite map_app, existsb_app.
           cbn [map fst existsb]. rewrite orb_false_r, negb_orb.
           apply andb_comm.
        -- intros k v. destruct (String.eqb_spec n k) as [<-|Hne].
           ++ rewrite <- (dict_set_fresh _ _ _ Hfresh), dict_get_set_eq.
              congruence.
           ++ rewrite <- (dict_set_fresh _ _ _ Hfresh), dict_get_set_ne by done.
              apply Hacc.
    + rewrite (IH acc Hacc). f_equal.
      assert (Hdrop : omap (fun name => pair name <$> dict_get name table)
                        (List.filter
                           (fun name =>
                              negb (existsb (String.eqb name) (map fst acc)))
                           (List.filter (fun other => negb (String.eqb other n))
                              (first_occurrences ns)))
                      = omap (fun name => pair name <$> dict_get name table)
                          (List.filter
                             (fun name =>
                                negb (existsb (String.eqb name) (map fst acc)))
                             (first_occurrences ns))).
      { rewrite filter_swap. apply omap_filter_none.
        intros x Hx. apply negb_false_iff, String.eqb_eq in Hx. subst x.
        by rewrite En. }
      destruct (negb (existsb (String.eqb n) (map fst acc)));
        cbn [omap list_omap]; [rewrite En; cbn|]; by rewrite Hdrop.
Qed.

(** X1: with an explicit selection, [export_all] works on the selected
    names that are keys of [entity_mappings], each once, at the place where
    it is selected first, and with the class [entity_mappings] gives it,
    whatever the configuration says; a name that is no key is dropped. *)
Theorem entities_to_export_selected (config : pyval) (first : string)
    (others : list string) :
  Exporter.entities_to_export config (Some (first :: others))
  = Ok (omap (fun name => pair name <$> dict_get name Exporter.entity_mappings)
          (first_occurrences (first :: others)))
  /\ Exporter.entities_to_export config (Some ["domains"; "teams"])
     = Ok [("domains", Domain); ("teams", Team)]
  /\ Exporter.entities_to_export config (Some ["teams"; "widgets"; "teams"])
     = Ok [("teams", Team)].
Proof.
  split; [|split; reflexivity].
  unfold Exporter.entities_to_export, dict_of_pairs.
  rewrite (selected_in_order Exporter.entity_mappings (first :: others) []);
    [|done].
  cbn [app map existsb negb]. f_equal. f_equal.
  induction (first_occurrences (first :: others)) as [|x l IH];
    cbn [List.filter]; [reflexivity | by rewrite IH].
Qed.

(** ** Text *)

Lemma append_assoc (a b c : string) : (a +:+ b) +:+ c = a +:+ (b +:+ c).
Proof. induction a as [|x a IH]; simpl; [reflexivity | by rewrite IH]. Qed.

Lemma append_nil_r (a : string) : a +:+ "" = a.
Proof. induction a as [|x a IH]; simpl; [reflexivity | by rewrite IH]. Qed.


Lemma readlines_line (line rest : string) :
  no_newline line = true ->
  readlines (line +:+ String LF rest) = (line +:+ String LF "") :: readlines rest.
Proof.
  induction line as [|c line IH]; simpl; [reflexivity|].
  intros H. apply andb_prop in H as [Hc Hline].
  apply andb_prop in Hc as [Hlf Hcr].
  apply negb_true_iff in Hlf, Hcr. rewrite Hlf, Hcr.
  by rewrite (IH Hline).
Qed.

Lemma readlines_join_lines (lines : list string) :
  Forall (fun line => no_newline line = true) lines ->
  readlines (join_lines lines) = map (fun line => line +:+ String LF "") lines.
Proof.
  induction 1 as [|line lines Hline _ IH]; simpl; [reflexivity|].
  by rewrite (readlines_line _ _ Hline), IH.
Qed.

Lemma rstrip_space (line : string) (c : ascii) :
  isspace c = true -> rstrip (line +:+ String c "") = rstrip line.
Proof.
  intros Hc. induction line as [|x line IH]; simpl.
  - by rewrite Hc.
  - by rewrite IH.
Qed.

Lemma strip_line_feed (line : string) : strip (line +:+ String LF "") = strip line.
Proof. unfold strip. by rewrite rstrip_space. Qed.

(** ** Loading a line-delimited file *)

Lemma load_lines_spec (loads : string -> decoded) (lines : list string)
    (entities : list pyval) :
  Forall (fun line => loads (strip line) <> OtherError) lines ->
  Importer.load_lines loads lines entities
  = Some (entities ++ omap (parsed_line loads) lines).
Proof.
  intros H. revert entities.
  induction H as [|line lines Hline _ IH]; intros entities;
    cbn [Importer.load_lines omap list_omap].
  - by rewrite app_nil_r.
  - unfold parsed_line.
    destruct (String.eqb (strip line) ""); [apply IH|].
    destruct (loads (strip line)) as [v| |]; [| apply IH | done].
    rewrite IH. by rewrite <- app_assoc.
Qed.

Lemma load_ndjson_spec (loads : string -> decoded) (fs : gmap string fnode)
    (filepath content : string) :
  fs !! filepath = Some (File content) ->
  Forall (fun line => loads (strip line) <> OtherError) (readlines content) ->
  Importer._load_ndjson loads fs filepath
  = omap (parsed_line loads) (readlines content).
Proof.
  intros Hfs Hok. unfold Importer._load_ndjson.
  by rewrite Hfs, (load_lines_spec _ _ _ Hok).
Qed.

Lemma parsed_line_feed (loads : string -> decoded) (line : string) :
  parsed_line loads (line +:+ String LF "") = parsed_line loads line.
Proof. unfold parsed_line. by rewrite strip_line_feed. Qed.

Lemma omap_parsed_lines (loads : string -> decoded) (lines : list string) :
  omap (parsed_line loads) (map (fun line => line +:+ String LF "") lines)
  = omap (parsed_line loads) lines.
Proof.
  induction lines as [|line lines IH]; [reflexivity|].
  cbn [map omap list_omap]. by rewrite parsed_line_feed, IH.
Qed.

Lemma load_ndjson_lines (loads : string -> decoded) (fs : gmap string fnode)
    (filepath : string) (lines : list string) :
  Forall (fun line => no_newline line = true) lines ->
  Forall (fun line => loads (strip line) <> OtherError) lines ->
  fs !! filepath = Some (File (join_lines lines)) ->
  Importer._load_ndjson loads fs filepath = omap (parsed_line loads) lines.
Proof.
  intros Hnl Hok Hfs.
  rewrite (load_ndjson_spec loads fs filepath _ Hfs).
  - by rewrite (readlines_join_lines _ Hnl), omap_parsed_lines.
  - rewrite (readlines_join_lines _ Hnl). apply Forall_map.
    eapply Forall_impl; [exact Hok|]. intros line Hline. cbn beta.
    by rewrite strip_line_feed.
Qed.

Lemma load_lines_other_error (loads : string -> decoded)
    (before after : list string) (bad : string) (entities : list pyval) :
  strip bad <> "" ->
  loads (strip bad) = OtherError ->
  Importer.load_lines loads (before ++ bad :: after) entities = None.
Proof.
  intros Hblank Hbad. revert entities.
  induction before as [|line before IH]; intros entities;
    cbn [app Importer.load_lines].
  - destruct (String.eqb_spec (strip bad) "") as [|_]; [done|].
    by rewrite Hbad.
  - destruct (String.eqb (strip line) ""); [apply IH|].
    destruct (loads (strip line)); [apply IH | apply IH | reflexivity].
Qed.




(** ** Writing and reading back *)

Lemma write_entities_complete (dump : dumper) (entities : list dict) :
  Forall (dumped_on_a_line dump) entities ->
  Exporter.write_entities dump entities
  = (join_lines (map (dumped_text dump) entities), true).
Proof.
  induction 1 as [|entity entities [Hdone _] _ IH]; [reflexivity|].
  cbn [Exporter.write_entities map join_lines]. unfold dumped_text at 1.
  destruct (dump (PDict entity)) as [text outcome]. cbn [fst snd] in *.
  subst outcome. by rewrite IH.
Qed.

Lemma write_ndjson_complete (dump : dumper) (entities : list dict)
    (filename output_dir : string) (fs : gmap string fnode) :
  can_open_w fs (path_join output_dir (filename +:+ ".ndjson")) = true ->
  Forall (dumped_on_a_line dump) entities ->
  Exporter._write_ndjson dump entities filename output_dir fs
  = (<[path_join output_dir (filename +:+ ".ndjson")
       := File (join_lines (map (dumped_text dump) entities))]> fs,
     List.length entities).
Proof.
  intros Hopen Hdump. unfold Exporter._write_ndjson.
  by rewrite Hopen, (write_entities_complete dump entities Hdump).
Qed.

Lemma dumped_lines (dump : dumper) (entities : list dict) :
  Forall (dumped_on_a_line dump) entities ->
  Forall (fun line => no_newline line = true) (map (dumped_text dump) entities).
Proof.
  intros H. apply Forall_fmap. eapply Forall_impl; [exact H|].
  by intros entity [_ Hline].
Qed.



Lemma omap_map {A B C : Type} (f : B -> option C) (g : A -> B) (l : list A) :
  omap f (map g l) = omap (fun x => f (g x)) l.
Proof.
  induction l as [|x l IH]; cbn [map omap list_omap]; [done | by rewrite IH].
Qed.


Lemma write_then_load (dump : dumper) (loads : string -> decoded)
    (entities : list dict) (filename output_dir : string)
    (fs : gmap string fnode) :
  can_open_w fs (path_join output_dir (filename +:+ ".ndjson")) = true ->
  Forall (dumped_on_a_line dump) entities ->
  Forall (fun entity => loads (strip (dumped_text dump entity)) <> OtherError)
    entities ->
  Importer._load_ndjson loads
    (Exporter._write_ndjson dump entities filename output_dir fs).1
    (path_join output_dir (filename +:+ ".ndjson"))
  = omap (fun entity => parsed_line loads (dumped_text dump entity)) entities.
Proof.
  intros Hopen Hdump Hok.
  rewrite (write_ndjson_complete dump entities _ _ fs Hopen Hdump).
  cbn [fst].
  rewrite (load_ndjson_lines loads _ _ (map (dumped_text dump) entities)).
  - apply omap_map.
  - by apply dumped_lines.
  - by apply Forall_fmap.
  - apply lookup_insert_eq.
Qed.




(** X2: what comes back from a file is, mapping by mapping and in order,
    what [json.loads] makes of the line [json.dump] wrote, a mapping whose
    line [json.loads] refuses being left out. *)
Theorem ndjson_write_then_load (dump : dumper) (loads : string -> decoded)
    (entities : list dict) (filename output_dir : string)
    (fs : gmap string fnode) :
  can_open_w fs (path_join output_dir (filename +:+ ".ndjson")) = true ->
  Forall (dumped_on_a_line dump) entities ->
  Forall (fun entity => loads (strip (dumped_text dump entity)) <> OtherError)
    entities ->
  Importer._load_ndjson loads
    (Exporter._write_ndjson dump entities filename output_dir fs).1
    (path_join output_dir (filename +:+ ".ndjson"))
  = omap (fun entity => parsed_line loads (dumped_text dump entity)) entities.
Proof. apply write_then_load. Qed.

Lemma ndjson_write_then_load_witness :
  let entity := [("id", PObj "7d9c" "UUID('7d9c')");
                 ("domainType", PObj "DomainType.Aggregate"
                                  "<DomainType.Aggregate: 'Aggregate'>");
                 ("pair", PTuple [PInt 1; PNone])] in
  let fs : gmap string fnode := {[ "out" := Dir ]} in
  Importer._load_ndjson json_decode
    (Exporter._write_ndjson json_dump [entity] "domains" "out" fs).1
    "out/domains.ndjson"
  = [PDict [("id", PStr "7d9c"); ("domainType", PStr "DomainType.Aggregate");
            ("pair", PList [PInt 1; PNone])]].
Proof.
  intros entity fs.
  etransitivity.
  - apply (ndjson_write_then_load json_dump json_decode [entity] "domains"
             "out" fs eq_refl).
    + repeat constructor.
    + repeat constructor. vm_compute. discriminate.
  - vm_compute. reflexivity.
Defined.

(** ** Further properties of the importer *)



(** X4: when [json.loads] raises, on some line that is not blank, an
    exception that is not a [json.JSONDecodeError], [_load_ndjson] returns
    the empty list: the values of the lines before it are dropped with
    those after it. *)
Theorem load_ndjson_other_error (loads : string -> decoded)
    (fs : gmap string fnode) (filepath : string)
    (before after : list string) (bad : string) :
  fs !! filepath = Some (File (join_lines (before ++ bad :: after))) ->
  Forall (fun line => no_newline line = true) (before ++ bad :: after) ->
  strip bad <> "" ->
  loads (strip bad) = OtherError ->
  Importer._load_ndjson loads fs filepath = [].
Proof.
  intros Hfs Hnl Hblank Hbad. unfold Importer._load_ndjson.
  rewrite Hfs, (readlines_join_lines _ Hnl), map_app. cbn [map].
  rewrite load_lines_other_error; [reflexivity | |];
    by rewrite strip_line_feed.
Qed.

Lemma load_ndjson_other_error_witness :
  let loads line :=
    if String.eqb line "[[[[" then OtherError else json_decode line in
  let lines := [encode (PDict [("id", PStr "1")]); "[[[["; encode (PDict [])] in
  Importer._load_ndjson loads {[ "teams.ndjson" := File (join_lines lines) ]}
    "teams.ndjson"
  = [].
Proof.
  intros loads lines.
  apply (load_ndjson_other_error loads _ "teams.ndjson"
           [encode (PDict [("id", PStr "1")])] [encode (PDict [])] "[[[[").
  - apply lookup_singleton_eq.
  - repeat constructor.
  - discriminate.
  - reflexivity.
Defined.

(** ** The field filter on every entity type *)

Lemma allowed_items_keys (allowed : gset string) (d : dict) (k : string) :
  In k (map fst (Importer.allowed_items allowed d))
  <-> In k (map fst d) /\ k ∈ allowed.
Proof.
  unfold Importer.allowed_items. rewrite !in_map_iff. split.
  - intros (kv & <- & Hin). apply filter_In in Hin as [Hin Hk].
    apply bool_decide_eq_true in Hk. split; [|exact Hk]. now exists kv.
  - intros [(kv & <- & Hin) Hk]. exists kv. split; [reflexivity|].
    apply filter_In. split; [exact Hin|]. now apply bool_decide_eq_true.
Qed.

Lemma allowed_items_unique (allowed : gset string) (d : dict) :
  keys_unique (map fst d) = true ->
  keys_unique (map fst (Importer.allowed_items allowed d)) = true.
Proof.
  intros H. apply NoDup_keys_unique. apply keys_unique_NoDup in H.
  induction d as [|[k v] d IH]; [constructor|].
  cbn [map fst] in H. apply NoDup_cons in H as [Hk Hd].
  unfold Importer.allowed_items. cbn [List.filter fst].
  fold (Importer.allowed_items allowed d).
  destruct (bool_decide (k ∈ allowed)); [|now apply IH].
  cbn [map fst]. apply NoDup_cons. split; [|now apply IH].
  intros Hin. apply Hk. apply list_elem_of_In. apply list_elem_of_In in Hin.
  now apply allowed_items_keys in Hin.
Qed.

(** X5: whatever the entity type, the filter returns a dictionary whose keys
    are keys of the record, each once; for the three filtered types they are
    the keys of the record that are on the list of the type; and every value
    is the record's, the [domain] of a data product apart. *)
Theorem filter_entity_fields_keys (record : dict) (entity_type : string) :
  keys_unique (map fst record) = true ->
  exists filtered : dict,
    Importer._filter_entity_fields (PDict record) entity_type
    = Ok (PDict filtered)
    /\ keys_unique (map fst filtered) = true
    /\ (forall k,
          In k (map fst filtered) <->
          In k (map fst record)
          /\ (entity_type = "data_products" -> k ∈ Importer.data_product_fields)
          /\ (entity_type = "domains" -> k ∈ Importer.domain_fields)
          /\ (entity_type = "teams" -> k ∈ Importer.team_fields))
    /\ (forall k v,
          dict_get k filtered = Some v ->
          dict_get k record = Some v
          \/ entity_type = "data_products" /\ k = "domain").
Proof.
  intros Hu. unfold Importer._filter_entity_fields.
  destruct (String.eqb entity_type "data_products") eqn:E1.
  { apply String.eqb_eq in E1. subst entity_type.
    set (filtered := Importer.allowed_items Importer.data_product_fields record).
    assert (Hkeys : forall k,
               In k (map fst filtered) <->
               In k (map fst record)
               /\ ("data_products" = "data_products" ->
                   k ∈ Importer.data_product_fields)
               /\ ("data_products" = "domains" -> k ∈ Importer.domain_fields)
               /\ ("data_products" = "teams" -> k ∈ Importer.team_fields)).
    { intros k. unfold filtered. rewrite allowed_items_keys. split.
      - intros [H1 H2]. repeat split; auto; discriminate.
      - intros (H1 & H2 & _). split; auto. }
    assert (Hvals : forall k v, dict_get k filtered = Some v ->
                                dict_get k record = Some v).
    { intros k v. unfold filtered. rewrite allowed_items_get.
      destruct (bool_decide _); [tauto | discriminate]. }
    destruct (dict_get "domain" filtered) as [x|] eqn:Ed.
    2:{ exists filtered. repeat split; try apply Hkeys; auto.
        now apply allowed_items_unique. }
    assert (Hother : exists filtered',
               Ok (PDict filtered) = Ok (PDict filtered')
               /\ keys_unique (map fst filtered') = true
               /\ (forall k, In k (map fst filtered') <-> In k (map fst filtered))
               /\ (forall k v, dict_get k filtered' = Some v ->
                               dict_get k filtered = Some v)).
    { exists filtered. repeat split; auto. now apply allowed_items_unique. }
    assert (Hset : forall y, exists filtered',
               Ok (PDict (dict_set "domain" y filtered)) = Ok (PDict filtered')
               /\ keys_unique (map fst filtered') = true
               /\ (forall k, In k (map fst filtered') <-> In k (map fst filtered))
               /\ (forall k v, dict_get k filtered' = Some v ->
                               dict_get k filtered = Some v \/ k = "domain")).
    { intros y. exists (dict_set "domain" y filtered).
      assert (Hk : map fst (dict_set "domain" y filtered) = map fst filtered)
        by (apply dict_set_keys; rewrite Ed; eauto).
      split; [reflexivity|]. rewrite Hk. split; [now apply allowed_items_unique|].
      split; [tauto|]. intros k v.
      destruct (String.eqb_spec "domain" k) as [<-|Hne]; [auto|].
      rewrite dict_get_set_ne by exact Hne. auto. }
    destruct x;
      try (exists filtered; repeat split; try apply Hkeys; auto;
           now apply allowed_items_unique).
    destruct (Hset (dict_get_or "fullyQualifiedName" d
                      (PStr (py_str (dict_get_or "name" d (PStr ""))))))
      as (filtered' & Heq & Hu' & Hk' & Hv').
    exists filtered'. split; [exact Heq|]. split; [exact Hu'|]. split.
    - intros k. rewrite Hk'. apply Hkeys.
    - intros k v Hg. destruct (Hv' k v Hg) as [H|H]; auto. }
  destruct (String.eqb entity_type "domains") eqn:E2.
  { apply String.eqb_eq in E2. subst entity_type.
    exists (Importer.allowed_items Importer.domain_fields record).
    split; [reflexivity|]. split; [now apply allowed_items_unique|]. split.
    - intros k. rewrite allowed_items_keys. split.
      + intros [H1 H2]. repeat split; auto; discriminate.
      + intros (H1 & _ & H2 & _). split; auto.
    - intros k v. rewrite allowed_items_get.
      destruct (bool_decide _); [tauto | discriminate]. }
  destruct (String.eqb entity_type "teams") eqn:E3.
  { apply String.eqb_eq in E3. subst entity_type.
    exists (Importer.allowed_items Importer.team_fields record).
    split; [reflexivity|]. split; [now apply allowed_items_unique|]. split.
    - intros k. rewrite allowed_items_keys. split.
      + intros [H1 H2]. repeat split; auto; discriminate.
      + intros (H1 & _ & _ & H2). split; auto.
    - intros k v. rewrite allowed_items_get.
      destruct (bool_decide _); [tauto | discriminate]. }
  apply String.eqb_neq in E1, E2, E3.
  exists record. split; [reflexivity|]. split; [exact Hu|]. split.
  - intros k. split; [|tauto]. intros H. repeat split; auto; intros ->; congruence.
  - auto.
Qed.

Lemma filter_entity_fields_keys_witness :
  let record := [("id", PStr "t1"); ("name", PStr "ops"); ("email", PStr "o@x")] in
  exists filtered : dict,
    Importer._filter_entity_fields (PDict record) "teams" = Ok (PDict filtered)
    /\ map fst filtered = ["name"; "email"].
Proof.
  intros record.
  destruct (filter_entity_fields_keys record "teams" eq_refl)
    as (filtered & Heq & _).
  exists filtered. split; [exact Heq|].
  vm_compute in Heq. injection Heq as <-. reflexivity.
Defined.

(** ** What an import accounts for *)

Lemma import_attempt_cases (K : sdk) (entity_data : pyval) (entity_type : string)
    (srv srv' : server K) (r : result bool) :
  Importer.import_attempt K entity_data entity_type srv = (srv', r) ->
  match r with
  | Ok true => is_Some (Importer.creation_path entity_type)
  | Ok false => Importer.creation_path entity_type = None /\ srv' = srv
  | Raise _ => is_Some (Importer.creation_path entity_type)
  end.
Proof.
  unfold Importer.import_attempt.
  destruct (Importer._filter_entity_fields entity_data entity_type)
    as [filtered|e] eqn:Ef.
  - destruct (Importer.creation_path entity_type) as [[cls method]|].
    + destruct filtered; try (intros [= <- <-]; eauto).
      destruct (new_request K cls d); [|intros [= <- <-]; eauto].
      destruct (call K method a srv) as [srv1 [u|e]]; intros [= <- <-]; eauto.
    + intros [= <- <-]. auto.
  - intros [= <- <-]. revert Ef.
    unfold Importer._filter_entity_fields, Importer.creation_path.
    destruct (String.eqb entity_type "data_products"); [eauto|].
    destruct (String.eqb entity_type "domains"); [eauto|].
    destruct (String.eqb entity_type "teams"); [eauto|]. discriminate.
Qed.

Lemma import_entity_cases (K : sdk) (entity_data : pyval) (entity_type : string)
    (self self' : Importer.t) (srv srv' : server K) (r : result bool) :
  Importer._import_entity K entity_data entity_type self srv = (self', srv', r) ->
  Importer.config self' = Importer.config self
  /\ Importer.import_stats self' = Importer.import_stats self
  /\ (r = Ok true /\ Importer.errors self' = Importer.errors self
      /\ is_Some (Importer.creation_path entity_type)
      \/ r = Ok false /\ Importer.errors self' = Importer.errors self
         /\ Importer.creation_path entity_type = None
      \/ r <> Ok true
         /\ is_Some (Importer.creation_path entity_type)
         /\ exists e,
              Importer.errors self'
              = Importer.errors self ++ [Importer.error_message entity_type e]).
Proof.
  unfold Importer._import_entity.
  destruct (Importer.import_attempt K entity_data entity_type srv)
    as [srv1 [done|e]] eqn:Ea; apply import_attempt_cases in Ea.
  - intros [= <- <- <-]. split; [reflexivity|]. split; [reflexivity|].
    destruct done; [left | right; left]; tauto.
  - cbn [Importer.config Importer.errors Importer.import_stats].
    destruct (bind _ _) as [skip|e'].
    + destruct (negb (truthy skip)); intros [= <- <- <-];
        (split; [reflexivity|]; split; [reflexivity|]); right; right;
        (split; [discriminate|]; split; [exact Ea|]); now exists e.
    + intros [= <- <- <-].
      (split; [reflexivity|]; split; [reflexivity|]); right; right.
      split; [discriminate|]. split; [exact Ea|]. now exists e.
Qed.

Lemma import_loop_accounting (K : sdk) (entity_type : string)
    (entities : list pyval) :
  forall (count : nat) (self : Importer.t) (srv : server K),
    let '(self', srv', r) :=
      Importer.import_loop K entities entity_type count self srv in
    Importer.config self' = Importer.config self
    /\ Importer.import_stats self' = Importer.import_stats self
    /\ exists new,
         Importer.errors self' = Importer.errors self ++ new
         /\ Forall (fun msg => exists e,
                      msg = Importer.error_message entity_type e) new
         /\ match r with
            | Ok n =>
                match Importer.creation_path entity_type with
                | Some _ =>
                    (n + List.length new = count + List.length entities)%nat
                | None => n = count /\ new = []
                end
            | Raise _ =>
                new <> [] /\ (List.length new <= List.length entities)%nat
            end.
Proof.
  induction entities as [|entity rest IH]; intros count self srv.
  - cbn [Importer.import_loop]. split; [reflexivity|]. split; [reflexivity|].
    exists []. rewrite app_nil_r. split; [reflexivity|]. split; [constructor|].
    destruct (Importer.creation_path entity_type); cbn [List.length]; auto.
  - cbn [Importer.import_loop].
    destruct (Importer._import_entity K entity entity_type self srv)
      as [[self1 srv1] r1] eqn:E1.
    apply import_entity_cases in E1 as (Hc1 & Hs1 & Hr1).
    destruct r1 as [done|e].
    + specialize (IH (if done then S count else count) self1 srv1).
      destruct (Importer.import_loop K rest entity_type
                  (if done then S count else count) self1 srv1)
        as [[self' srv'] r].
      destruct IH as (Hc & Hs & new & He & Hm & Hr).
      split; [congruence|]. split; [congruence|].
      destruct Hr1 as [(Hd & He1 & Hp)|[(Hd & He1 & Hp)|(Hd & Hp & e & He1)]].
      * injection Hd as ->. exists new. split; [congruence|]. split; [exact Hm|].
        destruct r as [n|e']; cbn [List.length].
        -- destruct Hp as [p Hp]. rewrite Hp in *. lia.
        -- destruct Hr. split; [assumption | lia].
      * injection Hd as ->. exists new. split; [congruence|]. split; [exact Hm|].
        destruct r as [n|e']; cbn [List.length].
        -- rewrite Hp in *. exact Hr.
        -- destruct Hr. split; [assumption | lia].
      * destruct done; [congruence|].
        exists (Importer.error_message entity_type e :: new).
        split; [rewrite He, He1, <- app_assoc; reflexivity|].
        split; [constructor; eauto|].
        destruct r as [n|e']; cbn [List.length].
        -- destruct Hp as [p Hp]. rewrite Hp in *. lia.
        -- split; [discriminate | lia].
    + split; [exact Hc1|]. split; [exact Hs1|].
      destruct Hr1 as [(Hd & _)|[(Hd & _)|(_ & _ & e0 & He1)]]; try discriminate.
      exists [Importer.error_message entity_type e0].
      split; [exact He1|]. split; [constructor; eauto|].
      cbn [List.length]. split; [discriminate | lia].
Qed.

(** X6: what [_import_entity_type] accounts for.  It leaves the
    configuration and the statistics alone and only appends to the error
    list, each message being the one [_import_entity] builds for the type.
    When it returns, on a type with a creation path every entity loaded
    from the file is either counted as a success or has one error recorded
    (the count and the new errors add up to the number of entities), and on
    another type it returns 0 and records nothing.  When it raises, at
    least one error has been recorded, and no more than there are
    entities. *)
Theorem import_entity_type_accounting (K : sdk) (loads : string -> decoded)
    (entity_type input_dir : string) (fs : gmap string fnode)
    (self : Importer.t) (srv : server K) :
  let entities :=
    Importer._load_ndjson loads fs
      (path_join input_dir (entity_type +:+ ".ndjson")) in
  let '(self', srv', r) :=
    Importer._import_entity_type K loads entity_type input_dir fs self srv in
  Importer.config self' = Importer.config self
  /\ Importer.import_stats self' = Importer.import_stats self
  /\ exists new,
       Importer.errors self' = Importer.errors self ++ new
       /\ Forall (fun msg => exists e,
                    msg = Importer.error_message entity_type e) new
       /\ match r with
          | Ok n =>
              match Importer.creation_path entity_type with
              | Some _ => (n + List.length new = List.length entities)%nat
              | None => n = 0%nat /\ new = []
              end
          | Raise _ =>
              new <> [] /\ (List.length new <= List.length entities)%nat
          end.
Proof.
  intros entities. unfold Importer._import_entity_type.
  assert (Hnone : Importer.config self = Importer.config self
            /\ Importer.import_stats self = Importer.import_stats self
            /\ exists new,
                 Importer.errors self = Importer.errors self ++ new
                 /\ Forall (fun msg => exists e,
                              msg = Importer.error_message entity_type e) new
                 /\ match Importer.creation_path entity_type with
                    | Some _ => (0 + List.length new = 0)%nat
                    | None => 0%nat = 0%nat /\ new = []
                    end).
  { split; [reflexivity|]. split; [reflexivity|]. exists [].
    rewrite app_nil_r. split; [reflexivity|]. split; [constructor|].
    destruct (Importer.creation_path entity_type); auto. }
  destruct (fs !! path_join input_dir (entity_type +:+ ".ndjson")) eqn:Ef.
  2:{ subst entities. unfold Importer._load_ndjson. rewrite Ef. exact Hnone. }
  fold entities. destruct entities as [|entity rest] eqn:El; [exact Hnone|].
  exact (import_loop_accounting K entity_type (entity :: rest) 0%nat self srv).
Qed.

(** ** The totals of an import *)

Lemma import_entity_type_bound (K : sdk) (loads : string -> decoded)
    (entity_type input_dir : string) (fs : gmap string fnode)
    (self self' : Importer.t) (srv srv' : server K) (r : result nat) :
  Importer._import_entity_type K loads entity_type input_dir fs self srv
  = (self', srv', r) ->
  Importer.config self' = Importer.config self
  /\ Importer.import_stats self' = Importer.import_stats self
  /\ (exists new, Importer.errors self' = Importer.errors self ++ new)
  /\ forall n, r = Ok n -> (n <= loaded_count loads fs input_dir entity_type)%nat.
Proof.
  intros E.
  pose proof (import_entity_type_accounting K loads entity_type input_dir fs
                self srv) as H.
  cbv zeta in H. rewrite E in H. destruct H as (Hc & Hs & new & He & _ & Hr).
  split; [exact Hc|]. split; [exact Hs|]. split; [now exists new|].
  intros n ->. unfold loaded_count.
  destruct (Importer.creation_path entity_type); [lia|].
  destruct Hr as [-> _]. lia.
Qed.

Lemma import_types_counts (K : sdk) (loads : string -> decoded)
    (input_dir : string) (fs : gmap string fnode) (import_order : list string) :
  forall (total : nat) (self self' : Importer.t) (srv srv' : server K)
         (r : result nat),
    Importer.import_types K loads import_order input_dir fs total self srv
    = (self', srv', r) ->
    Importer.config self' = Importer.config self
    /\ (exists new, Importer.errors self' = Importer.errors self ++ new)
    /\ forall total',
         r = Ok total' ->
         exists counts,
           map fst counts = import_order
           /\ total' = (total + list_sum (map snd counts))%nat
           /\ Importer.import_stats self'
              = record_counts (Importer.import_stats self) counts
           /\ Forall (fun kv =>
                        (snd kv <= loaded_count loads fs input_dir (fst kv))%nat)
                counts.
Proof.
  induction import_order as [|entity_type rest IH];
    intros total self self' srv srv' r; cbn [Importer.import_types].
  - intros [= <- <- <-]. split; [reflexivity|].
    split; [exists []; now rewrite app_nil_r|].
    intros total' [= <-]. exists []. cbn. repeat split; auto.
  - destruct (Importer._import_entity_type K loads entity_type input_dir fs
                self srv) as [[self1 srv1] r1] eqn:E1.
    apply import_entity_type_bound in E1 as (Hc1 & Hs1 & [new1 He1] & Hb1).
    destruct r1 as [count|e].
    + intros E. apply IH in E as (Hc & [new He] & Hr).
      cbn [Importer.config Importer.errors Importer.import_stats] in *.
      split; [congruence|].
      split; [exists (new1 ++ new); rewrite He, He1, app_assoc; reflexivity|].
      intros total' Hok. destruct (Hr total' Hok) as (counts & Hk & Ht & Hs & Hb).
      exists ((entity_type, count) :: counts). cbn [map fst snd]. rewrite list_sum_cons.
      split; [now rewrite Hk|]. split; [lia|].
      split; [rewrite Hs, Hs1; reflexivity|].
      constructor; [apply Hb1; reflexivity | exact Hb].
    + intros [= <- <- <-]. split; [exact Hc1|]. split; [now exists new1|].
      discriminate.
Qed.

Lemma import_all_runs (K : sdk) (loads : string -> decoded)
    (fs : gmap string fnode) (self self' : Importer.t) (srv srv' : server K)
    (total : nat) :
  Importer.import_all K loads fs self srv = (self', srv', Ok total) ->
  exists dir order import_order,
    getitem_path (Importer.config self) ["import"; "input_dir"] = Ok (PStr dir)
    /\ is_Some (fs !! dir)
    /\ getitem_path (Importer.config self) ["import"; "import_order"] = Ok order
    /\ Importer.import_order_of order = Ok import_order
    /\ Importer.import_types K loads import_order dir fs 0%nat self srv
       = (self', srv', Ok total).
Proof.
  unfold Importer.import_all. cbn [getitem_path].
  destruct (getitem (Importer.config self) "openmetadata") as [om|];
    cbn [bind]; [|discriminate].
  destruct (getitem om "server_url"); cbn [bind]; [|discriminate].
  destruct (getitem (Importer.config self) "import") as [import|];
    cbn [bind]; [|discriminate].
  destruct (getitem import "input_dir") as [input_dir|];
    cbn [bind]; [|discriminate].
  destruct input_dir; try discriminate.
  destruct (fs !! s) eqn:Ed; [|discriminate].
  destruct (getitem import "import_order") as [order|]; cbn [bind];
    [|discriminate].
  destruct (Importer.import_order_of order) as [import_order|] eqn:Eo;
    cbn [bind]; [|discriminate].
  intros E. exists s, order, import_order. rewrite Ed. eauto 10.
Qed.

(** X7: when [import_all] of a fresh importer gets through its loop, the
    statistics have an entry for exactly the types of [import_order], and
    their counts add up to at most the total; when no type is named twice
    the entries are in the order of [import_order] and the counts add up to
    the total (a type named twice is imported twice and counted twice in the
    total, while its entry keeps the later count only). *)
Theorem import_all_totals (K : sdk) (loads : string -> decoded)
    (fs : gmap string fnode) (self self' : Importer.t) (srv srv' : server K)
    (total : nat) :
  Importer.import_all K loads fs self srv = (self', srv', Ok total) ->
  Importer.import_stats self = [] ->
  exists order import_order,
    getitem_path (Importer.config self) ["import"; "import_order"] = Ok order
    /\ Importer.import_order_of order = Ok import_order
    /\ (forall entity_type,
          is_Some (dict_get entity_type (Importer.import_stats self'))
          <-> In entity_type import_order)
    /\ (list_sum (map snd (Importer.import_stats self')) <= total)%nat
    /\ (NoDup import_order ->
        map fst (Importer.import_stats self') = import_order
        /\ total = list_sum (map snd (Importer.import_stats self'))).
Proof.
  intros E Hs0.
  apply import_all_runs in E as (dir & order & import_order & _ & _ & Ho & Hi & E).
  exists order, import_order. split; [exact Ho|]. split; [exact Hi|].
  apply import_types_counts in E as (_ & _ & Hr).
  destruct (Hr total eq_refl) as (counts & Hk & Ht & Hs & _).
  rewrite Hs0 in Hs. rewrite Hs. split; [|split].
  - intros entity_type. rewrite record_counts_keys, Hk.
    split; [intros [[? [=]]|H]; exact H | auto].
  - pose proof (record_counts_sum counts []) as H. cbn in H. lia.
  - intros Hnd. rewrite record_counts_unique by (rewrite Hk; exact Hnd).
    split; [exact Hk | lia].
Qed.

(** ** The dry run *)

Lemma dry_run_loop_total (loads : string -> decoded) (input_path : string)
    (fs : gmap string fnode) (import_order : list pyval) (total : nat) :
  (ImportTool.dry_run_loop loads import_order input_path fs total).2
  = (total
     + list_sum (map (fun et => loaded_count loads fs input_path (py_str et))
                   import_order))%nat.
Proof.
  revert total. induction import_order as [|et rest IH]; intros total;
    cbn [ImportTool.dry_run_loop map].
  - cbn. lia.
  - rewrite list_sum_cons. unfold loaded_count at 1.
    destruct (fs !! path_join input_path (py_str et +:+ ".ndjson")) eqn:Ef.
    + destruct (ImportTool.dry_run_loop loads rest input_path fs _)
        as [lines total'] eqn:El.
      cbn [snd]. change total' with (lines, total').2. rewrite <- El, IH. lia.
    + rewrite IH. unfold Importer._load_ndjson. rewrite Ef. cbn. lia.
Qed.

Lemma import_order_items (l : list pyval) (names : list string) :
  mapM (fun x => match x with
                 | PStr s => Ok s
                 | _ => Raise (TypeError "sequence item: expected str instance")
                 end) l = Ok names ->
  l = map PStr names.
Proof.
  revert names. induction l as [|x l IH]; intros names; cbn [mapM].
  - intros [= <-]. reflexivity.
  - destruct x; try discriminate. cbn [bind].
    destruct (mapM _ l) as [ys|]; [|discriminate]. cbn [bind].
    intros [= <-]. cbn [map]. now rewrite (IH ys).
Qed.

Lemma import_order_iter (order : pyval) (import_order : list string) :
  Importer.import_order_of order = Ok import_order ->
  py_iter order = Ok (map PStr import_order).
Proof.
  unfold Importer.import_order_of, py_iter. destruct order; try discriminate.
  - intros [= <-]. now rewrite map_map.
  - intros H. now rewrite (import_order_items _ _ H).
  - intros H. now rewrite (import_order_items _ _ H).
  - intros [= <-]. now rewrite map_map.
Qed.

Lemma counts_within_loaded (loads : string -> decoded) (fs : gmap string fnode)
    (input_dir : string) (counts : list (string * nat)) :
  Forall (fun kv => (snd kv <= loaded_count loads fs input_dir (fst kv))%nat)
    counts ->
  (list_sum (map snd counts)
   <= list_sum (map (fun et => loaded_count loads fs input_dir (py_str et))
                  (map PStr (map fst counts))))%nat.
Proof.
  induction 1 as [|[k v] counts Hkv _ IH]; cbn [map fst snd]; [cbn; lia|].
  rewrite !list_sum_cons. cbn [py_str fst snd] in *. lia.
Qed.

(** X8: whenever [import_all] gets through its loop, the dry run on the
    same configuration and files runs to its end too, and the total it
    announces is at least the total imported. *)
Theorem dry_run_covers_import (K : sdk) (loads : string -> decoded)
    (fs : gmap string fnode) (self self' : Importer.t) (srv srv' : server K)
    (total : nat) :
  Importer.import_all K loads fs self srv = (self', srv', Ok total) ->
  exists lines announced,
    ImportTool.dry_run loads (Importer.config self) None fs
    = Ok (lines ++ [ImportTool.TotalToImport announced])
    /\ (total <= announced)%nat.
Proof.
  intros E.
  apply import_all_runs in E as (dir & order & import_order & Hd & _ & Ho & Hi & E).
  apply import_types_counts in E as (_ & _ & Hr).
  destruct (Hr total eq_refl) as (counts & Hk & Ht & _ & Hb).
  apply import_order_iter in Hi.
  unfold ImportTool.dry_run. cbn [getitem_path] in Hd, Ho.
  destruct (getitem (Importer.config self) "import") as [import|];
    cbn [bind] in *; [|discriminate].
  destruct (getitem import "input_dir") as [input_dir|];
    cbn [bind] in *; [|discriminate].
  injection Hd as ->.
  destruct (getitem import "import_order") as [order'|];
    cbn [bind] in *; [|discriminate].
  injection Ho as ->. rewrite Hi. cbn [bind].
  pose proof (dry_run_loop_total loads dir fs (map PStr import_order) 0) as Hl.
  destruct (ImportTool.dry_run_loop loads (map PStr import_order) dir fs 0)
    as [lines announced].
  cbn [snd] in Hl. exists lines, announced. split; [reflexivity|].
  apply counts_within_loaded in Hb. rewrite Hk in Hb. lia.
Qed.

Lemma import_all_totals_witness :
  let fs : gmap string fnode :=
    {[ "./test_imports" := Dir;
       "./test_imports/teams.ndjson" :=
         File (join_lines [encode (PDict [("name", PStr "ops")]);
                           encode (PDict [("id", PStr "t2")])]) ]} in
  let self := {| Importer.config := test_import_config;
                 Importer.import_stats := [];
                 Importer.errors := [] |} in
  let srv := {| created := []; listed := []; catalog := fun _ => Ok None |} in
  let run := Importer.import_all mock_sdk json_decode fs self srv in
  run.2 = Ok 1%nat
  /\ Importer.import_stats run.1.1
     = [("teams", 1%nat); ("domains", 0%nat); ("data_products", 0%nat)]
  /\ 1%nat = list_sum (map snd (Importer.import_stats run.1.1)).
Proof.
  intros fs self srv run.
  assert (E : run = (run.1.1, run.1.2, Ok 1%nat)) by (vm_compute; reflexivity).
  split; [vm_compute; reflexivity|]. split; [vm_compute; reflexivity|].
  destruct (import_all_totals mock_sdk json_decode fs self _ srv _ 1%nat E eq_refl)
    as (order & import_order & Ho & Hi & _ & _ & Hnd).
  vm_compute in Ho. injection Ho as <-. vm_compute in Hi. injection Hi as <-.
  apply Hnd. apply keys_unique_NoDup. reflexivity.
Defined.

Lemma dry_run_covers_import_witness :
  let fs : gmap string fnode :=
    {[ "./test_imports" := Dir;
       "./test_imports/teams.ndjson" :=
         File (join_lines [encode (PDict [("name", PStr "ops")]);
                           encode (PDict [("id", PStr "t2")])]) ]} in
  let self := {| Importer.config := test_import_config;
                 Importer.import_stats := [];
                 Importer.errors := [] |} in
  let srv := {| created := []; listed := []; catalog := fun _ => Ok None |} in
  (Importer.import_all mock_sdk json_decode fs self srv).2 = Ok 1%nat
  /\ ImportTool.dry_run json_decode test_import_config None fs
     = Ok [ImportTool.WouldImport 2 "teams"; ImportTool.TotalToImport 2].
Proof.
  intros fs self srv.
  set (run := Importer.import_all mock_sdk json_decode fs self srv).
  assert (E : run = (run.1.1, run.1.2, Ok 1%nat)) by (vm_compute; reflexivity).
  split; [vm_compute; reflexivity|].
  destruct (dry_run_covers_import mock_sdk json_decode fs self _ srv _ 1%nat E)
    as (lines & announced & Hd & _).
  vm_compute. reflexivity.
Defined.

(** ** The files and the totals of an export *)

Lemma list_ascii_append (a b : string) :
  list_ascii_of_string (a +:+ b)
  = (list_ascii_of_string a ++ list_ascii_of_string b)%list.
Proof. induction a as [|c a IH]; simpl; [reflexivity | now rewrite IH]. Qed.

Lemma append_inv_head (a x y : string) : a +:+ x = a +:+ y -> x = y.
Proof. induction a as [|c a IH]; simpl; [auto | intros [= H]; auto]. Qed.

Lemma append_inv_tail (x y s : string) : x +:+ s = y +:+ s -> x = y.
Proof.
  intros H. apply (f_equal list_ascii_of_string) in H.
  rewrite !list_ascii_append in H. apply app_inv_tail in H.
  rewrite <- (string_of_list_ascii_of_string x),
          <- (string_of_list_ascii_of_string y).
  now rewrite H.
Qed.

Lemma ndjson_path_inj (dir a b : string) :
  path_join dir (a +:+ ".ndjson") = path_join dir (b +:+ ".ndjson") -> a = b.
Proof.
  unfold path_join. intros H.
  apply append_inv_head, append_inv_head in H. now apply append_inv_tail in H.
Qed.





Lemma export_entity_type_cases (K : sdk) (dump : dumper) (entity_name : string)
    (cls : entity_class) (output_dir : string) (fs fs' : gmap string fnode)
    (srv srv' : server K) (count : nat) :
  Exporter._export_entity_type K dump entity_name cls output_dir fs srv
  = (fs', srv', count) ->
  (forall path,
     path <> path_join output_dir (entity_name +:+ ".ndjson") ->
     fs' !! path = fs !! path)
  /\ exported_file dump fs fs'
       (path_join output_dir (entity_name +:+ ".ndjson")) count.
Proof.
  unfold Exporter._export_entity_type, Exporter.export_attempt, exported_file.
  destruct (list_entities K cls 10000 srv) as [srv1 [response|e]];
    [|intros [= <- <- <-]; auto].
  destruct (mapM Exporter.entity_to_dict _) as [entity_dicts|e];
    [|intros [= <- <- <-]; auto].
  unfold Exporter._write_ndjson.
  destruct (can_open_w fs (path_join output_dir (entity_name +:+ ".ndjson")));
    [|intros [= <- <- <-]; auto].
  destruct (Exporter.write_entities dump entity_dicts) as [text done] eqn:Ew.
  destruct done; intros [= <- <- <-];
    (split; [intros path Hne; by rewrite lookup_insert_ne|]);
    right; exists entity_dicts, text; eexists; rewrite lookup_insert_eq;
    (split; [exact Ew|]); done.
Qed.

Lemma export_loop_files (K : sdk) (dump : dumper) (output_dir : string)
    (todo : list (string * entity_class)) :
  NoDup (map fst todo) ->
  forall (self self' : Exporter.t) (total total' : nat)
         (fs fs' : gmap string fnode) (srv srv' : server K),
    Exporter.export_loop K dump todo output_dir self total fs srv
    = (self', total', fs', srv') ->
    Exporter.config self' = Exporter.config self
    /\ (forall path,
          (forall name, In name (map fst todo) ->
                        path <> path_join output_dir (name +:+ ".ndjson")) ->
          fs' !! path = fs !! path)
    /\ exists counts,
         map fst counts = map fst todo
         /\ total' = (total + list_sum (map snd counts))%nat
         /\ Exporter.export_stats self'
            = record_counts (Exporter.export_stats self) counts
         /\ Forall (fun kv =>
                      exported_file dump fs fs'
                        (path_join output_dir (fst kv +:+ ".ndjson")) (snd kv))
              counts.
Proof.
  induction todo as [|[entity_name cls] todo IH]; intros Hnd self self' total
    total' fs fs' srv srv'; cbn [Exporter.export_loop].
  - intros [= <- <- <- <-]. split; [reflexivity|]. split; [reflexivity|].
    exists []. cbn. repeat split; auto.
  - cbn [map fst] in Hnd. apply NoDup_cons in Hnd as [Hfresh Hnd].
    destruct (Exporter._export_entity_type K dump entity_name cls output_dir fs srv)
      as [[fs1 srv1] count] eqn:E1.
    apply export_entity_type_cases in E1 as [Hframe1 Hfile1].
    intros E. apply (IH Hnd) in E as (Hc & Hframe & counts & Hk & Ht & Hs & Hf).
    cbn [Exporter.config Exporter.export_stats] in *.
    split; [exact Hc|]. split.
    + intros path Hpath. rewrite Hframe.
      * apply Hframe1. apply Hpath. cbn [map fst In]. now left.
      * intros name Hin. apply Hpath. cbn [map fst In]. now right.
    + exists ((entity_name, count) :: counts). cbn [map fst snd].
      rewrite list_sum_cons. split; [now rewrite Hk|]. split; [lia|].
      split; [exact Hs|]. constructor.
      * cbn [fst snd].
        assert (Hkeep : fs' !! path_join output_dir (entity_name +:+ ".ndjson")
                        = fs1 !! path_join output_dir (entity_name +:+ ".ndjson")).
        { apply Hframe. intros name Hin Heq. apply ndjson_path_inj in Heq.
          subst name. apply Hfresh. now apply list_elem_of_In. }
        unfold exported_file in *. rewrite Hkeep. exact Hfile1.
      * rewrite List.Forall_forall in Hf |- *. intros [name n] Hin.
        specialize (Hf _ Hin). cbn [fst snd] in *.
        assert (Hne : path_join output_dir (name +:+ ".ndjson")
                      <> path_join output_dir (entity_name +:+ ".ndjson")).
        { intros Heq. apply ndjson_path_inj in Heq. subst name.
          apply Hfresh. apply list_elem_of_In. rewrite <- Hk.
          apply in_map_iff. now exists (entity_name, n). }
        unfold exported_file in *. rewrite <- (Hframe1 _ Hne). exact Hf.
Qed.

Lemma export_all_loop (K : sdk) (dump : dumper)
    (selected : option (list string)) (self self' : Exporter.t)
    (fs fs' : gmap string fnode) (srv srv' : server K) (total : nat) :
  Exporter.export_all K dump selected self fs srv
  = Ok (self', total, fs', srv') ->
  exists dir fs0 todo,
    getitem_path (Exporter.config self) ["export"; "output_dir"] = Ok (PStr dir)
    /\ mkdir_parents dir fs = Ok fs0
    /\ Exporter.entities_to_export (Exporter.config self) selected = Ok todo
    /\ Exporter.export_loop K dump todo dir self 0%nat fs0 srv
       = (self', total, fs', srv').
Proof.
  unfold Exporter.export_all, Exporter._ensure_output_dir. cbn [getitem_path].
  destruct (getitem (Exporter.config self) "openmetadata") as [om|];
    cbn [bind]; [|discriminate].
  destruct (getitem om "server_url"); cbn [bind]; [|discriminate].
  destruct (getitem (Exporter.config self) "export") as [export|];
    cbn [bind]; [|discriminate].
  destruct (getitem export "output_dir") as [output_dir|];
    cbn [bind]; [|discriminate].
  destruct output_dir; try discriminate.
  destruct (mkdir_parents s fs) as [fs0|] eqn:Emk; cbn [bind]; [|discriminate].
  destruct (Exporter.entities_to_export (Exporter.config self) selected)
    as [todo|]; cbn [bind fst snd]; [|discriminate].
  intros [= E]. exists s, fs0, todo. auto.
Qed.


(** X10: when [export_all] of a fresh exporter gets through its loop, the
    statistics have one entry for each type of the working set, in its
    order; the working set names no type twice and only types of
    [entity_mappings]; the total is the sum of the counts; and the
    configuration is as it was. *)
Theorem export_all_totals (K : sdk) (dump : dumper) (selected : option (list string))
    (self self' : Exporter.t) (fs fs' : gmap string fnode) (srv srv' : server K)
    (total : nat) :
  Exporter.export_all K dump selected self fs srv = Ok (self', total, fs', srv') ->
  Exporter.export_stats self = [] ->
  exists todo,
    Exporter.entities_to_export (Exporter.config self) selected = Ok todo
    /\ map fst (Exporter.export_stats self') = map fst todo
    /\ NoDup (map fst todo)
    /\ (forall name,
          In name (map fst todo) ->
          is_Some (dict_get name Exporter.entity_mappings))
    /\ total = list_sum (map snd (Exporter.export_stats self'))
    /\ Exporter.config self' = Exporter.config self.
Proof.
  intros E Hs0.
  apply export_all_loop in E as (dir & fs0 & todo & _ & _ & Ht & E).
  exists todo. split; [exact Ht|].
  apply entities_to_export_known in Ht as [Hnd Hknown].
  apply (export_loop_files K dump dir todo Hnd) in E
    as (Hc & _ & counts & Hk & Htot & Hs & _).
  rewrite Hs0 in Hs.
  rewrite record_counts_unique in Hs by (rewrite Hk; exact Hnd).
  rewrite Hs. split; [exact Hk|]. split; [exact Hnd|]. split; [|split].
  - intros name Hin. apply in_map_iff in Hin as ([name' cls] & Hname & Hin).
    cbn [fst] in Hname. subst name'. exists cls. apply Hknown.
    now apply dict_get_In.
  - lia.
  - exact Hc.
Qed.


Lemma export_all_totals_witness :
  let srv := {| created := []; listed := [];
                catalog := fun _ =>
                  Ok (Some [pydantic_entity [("id", PStr "1")];
                            pydantic_entity [("id", PStr "2")]]) |} in
  let self := {| Exporter.config := test_export_config;
                 Exporter.export_stats := [] |} in
  let run :=
    Exporter.export_all mock_sdk json_dump (Some ["domains"; "tables"]) self ∅
      srv in
  let done := match run with
              | Ok done => done
              | Raise _ => (self, 0%nat, ∅, srv)
              end in
  run = Ok done
  /\ done.1.1.2 = list_sum (map snd (Exporter.export_stats done.1.1.1))
  /\ done.1.1.2 = 4%nat.
Proof.
  intros srv self run done.
  assert (E : run = Ok (done.1.1.1, done.1.1.2, done.1.2, done.2))
    by (vm_compute; exact eq_refl).
  split; [exact E|].
  destruct (export_all_totals mock_sdk json_dump _ self _ ∅ _ srv _ _ E eq_refl)
    as (todo & _ & _ & _ & _ & Htotal & _).
  split; [exact Htotal | vm_compute; reflexivity].
Defined.

(** ** What the environment overrides *)















(** ** The bulk deletion *)

Lemma delete_loop_all (F : sdk_admin) (entities : list sdk_entity) :
  forall srv : server F,
    Forall (fun domain =>
              exists name, getattr F domain "fullyQualifiedName" = Ok name)
      entities ->
    DeleteAllDomains.delete_loop F entities srv
    = (fold_left
         (fun srv domain => (DeleteAllDomains.delete_attempt F domain srv).1)
         entities srv,
       Ok tt).
Proof.
  induction entities as [|domain rest IH]; intros srv Hnames;
    cbn [DeleteAllDomains.delete_loop fold_left]; [reflexivity|].
  apply Forall_cons in Hnames as [[name Hname] Hrest].
  destruct (DeleteAllDomains.delete_attempt F domain srv) as [srv' [u|e]];
    cbn [fst]; [|rewrite Hname]; by apply IH.
Qed.

(** X13: with both variables set and not empty, the script opens its
    client with the token, lists the domains with the limit of 10000, and
    attempts the deletion of every listed domain, in the order of the
    listing, a deletion that raises not stopping the ones after it; it
    runs to its end whatever the deletions do, provided the name of each
    domain can be read for the messages. *)
Theorem delete_all_domains_attempts_all (F : sdk_admin)
    (environ : gmap string string) (server_url jwt_token : string)
    (metadata metadata1 : server F) (entities : list sdk_entity) :
  environ !! "OPENMETADATA_SERVER_URL" = Some server_url ->
  server_url <> "" ->
  environ !! "OPENMETADATA_JWT_TOKEN" = Some jwt_token ->
  jwt_token <> "" ->
  open_client F {| hostPort := PStr server_url;
                   authProvider := Some "openmetadata";
                   securityConfig := Some (PStr jwt_token) |}
  = Ok metadata ->
  list_entities F Domain 10000 metadata = (metadata1, Ok (Some entities)) ->
  Forall (fun domain =>
            exists name, getattr F domain "fullyQualifiedName" = Ok name)
    entities ->
  DeleteAllDomains.main F environ
  = Ok (fold_left
          (fun srv domain => (DeleteAllDomains.delete_attempt F domain srv).1)
          entities metadata1).
Proof.
  intros Hurl Hu Htoken Ht Hopen Hlist Hnames. unfold DeleteAllDomains.main.
  rewrite Hurl, Htoken.
  destruct server_url as [|c1 url]; [done|].
  destruct jwt_token as [|c2 token]; [done|].
  rewrite Hopen. cbn [bind]. rewrite Hlist.
  by rewrite (delete_loop_all F entities metadata1 Hnames).
Qed.

Lemma delete_all_domains_attempts_all_witness :
  let domain id := pydantic_entity [("id", PStr id);
                                    ("fullyQualifiedName", PStr id)] in
  let domains := [domain "d1"; domain "d2"; domain "d3"] in
  let environ : gmap string string :=
    {[ "OPENMETADATA_SERVER_URL" := "http://localhost:8585/api";
       "OPENMETADATA_JWT_TOKEN" := "token" ]} in
  DeleteAllDomains.main (log_admin domains) environ
  = Ok ["list"; "delete d1"; "delete d2"; "delete d3"].
Proof.
  intros domain domains environ.
  rewrite (delete_all_domains_attempts_all (log_admin domains) environ
             "http://localhost:8585/api" "token" [] ["list"] domains
             eq_refl ltac:(discriminate) eq_refl ltac:(discriminate)
             eq_refl eq_refl).
  - reflexivity.
  - repeat constructor; eexists; reflexivity.
Defined.
